(** * CFDDNS: the dynamic-DNS updater [ddns.py]

    A shallow embedding of the script and the properties of its
    reconcile-and-update workflow.

    Conventions.
    - A Python [str] is a Rocq [string]; a character stands for the code
      point of the same number (code points below 256).
    - [print] appends its argument to [stdout]; the newline [print] adds
      is implicit, one list element per call.
    - [sys.exit] and uncaught exceptions are outcomes of a computation,
      next to a normal return.
    - What the script takes from the standard library without fixing its
      result ([json.loads], [json.dumps], [urlencode], [repr]) is a field
      of [PyLib]; what it takes from the machine it runs on (the [.env]
      file, the process environment, the network, the clock) is a field
      of [World]. *)

From Stdlib Require Import String Ascii List ZArith Lia Bool Arith.
From Stdlib Require Import Decimal DecimalString.
Import ListNotations.
Local Open Scope list_scope.
Local Open Scope string_scope.

(* ================================================================== *)
(** * Python strings *)
(* ================================================================== *)

Module PyStr.

(** [str.isspace] on one character, for code points below 256:
    TAB..CR, FS..US, space, NEL and the no-break space. *)
Definition isspace (c : ascii) : bool :=
  let n := nat_of_ascii c in
  (((9 <=? n) && (n <=? 13)) || ((28 <=? n) && (n <=? 32))
   || (n =? 133) || (n =? 160))%nat.

Fixpoint lstrip (s : string) : string :=
  match s with
  | EmptyString => EmptyString
  | String c s' => if isspace c then lstrip s' else s
  end.

Fixpoint rstrip (s : string) : string :=
  match s with
  | EmptyString => EmptyString
  | String c s' =>
      match rstrip s' with
      | EmptyString => if isspace c then EmptyString else String c EmptyString
      | r => String c r
      end
  end.

(** [s.strip()] *)
Definition strip (s : string) : string := rstrip (lstrip s).

(** [s.partition(sep)] for a one-character separator, [None] when the
    separator does not occur. *)
Fixpoint partition (sep : ascii) (s : string) : option (string * string) :=
  match s with
  | EmptyString => None
  | String c s' =>
      if Ascii.eqb c sep then Some (EmptyString, s')
      else match partition sep s' with
           | Some (a, b) => Some (String c a, b)
           | None => None
           end
  end.

(** [s.split(sep, 1)]: at most one split, at the first separator. *)
Definition split1 (sep : ascii) (s : string) : list string :=
  match partition sep s with
  | Some (a, b) => [a; b]
  | None => [s]
  end.

(** [s[:n]] *)
Definition slice_to (n : nat) (s : string) : string := substring 0 n s.

(** [s[-n:]] for [n > 0] *)
Definition slice_last (n : nat) (s : string) : string :=
  substring (String.length s - n) n s.

(** [c * n] for a one-character string *)
Fixpoint repeat_char (c : ascii) (n : nat) : string :=
  match n with
  | O => EmptyString
  | S n' => String c (repeat_char c n')
  end.

(** [s.upper()] on ASCII letters; the script applies it to the literals
    GET and PATCH only. *)
Definition upper_char (c : ascii) : ascii :=
  let n := nat_of_ascii c in
  if ((97 <=? n) && (n <=? 122))%nat then ascii_of_nat (n - 32) else c.

Fixpoint upper (s : string) : string :=
  match s with
  | EmptyString => EmptyString
  | String c s' => String (upper_char c) (upper s')
  end.

(** [str(n)] for a non-negative integer *)
Definition str_of_nat (n : nat) : string :=
  NilZero.string_of_uint (Nat.to_uint n).

(** [sub in s] *)
Fixpoint contains (sub s : string) : bool :=
  if prefix sub s then true
  else match s with
       | EmptyString => false
       | String _ s' => contains sub s'
       end.

Definition newline : string := String (ascii_of_nat 10) EmptyString.

End PyStr.

(* ================================================================== *)
(** * Exceptions and results *)
(* ================================================================== *)

(** The exceptions the script can meet.  [LibError] is any other subclass
    of [Exception] raised inside a library call (URLError, HTTPError,
    TimeoutError, JSONDecodeError, ...), with its class name and [str]. *)
Inductive pyexn : Type :=
| IndexError
| KeyError (key : string)
| TypeError
| LibError (cls msg : string).

Definition exn_class (e : pyexn) : string :=
  match e with
  | IndexError => "IndexError"
  | KeyError _ => "KeyError"
  | TypeError => "TypeError"
  | LibError cls _ => cls
  end.

(** A pure expression either has a value or raises. *)
Inductive res (A : Type) : Type :=
| Ok (a : A)
| Raise (e : pyexn).
Arguments Ok {A} a.
Arguments Raise {A} e.

Definition res_bind {A B} (r : res A) (k : A -> res B) : res B :=
  match r with
  | Ok a => k a
  | Raise e => Raise e
  end.

(** [l[i]] on a list, [i >= 0] *)
Definition list_getitem {A} (l : list A) (i : nat) : res A :=
  match nth_error l i with
  | Some a => Ok a
  | None => Raise IndexError
  end.

(* ================================================================== *)
(** * JSON documents as Python values *)
(* ================================================================== *)

(** What [json.loads] builds: [None], [bool], [int], [str], [list] and
    [dict] (insertion-ordered, keys unique).  Documents with non-integer
    numbers are outside the model. *)
#[local] Set Warnings "-register-all".
Inductive json : Type :=
| JNull
| JBool (b : bool)
| JInt (z : Z)
| JStr (s : string)
| JArr (items : list json)
| JObj (fields : list (string * json)).

Module Json.

(** [d.get(k)] on the fields of a dict *)
Fixpoint assoc {A} (k : string) (d : list (string * A)) : option A :=
  match d with
  | [] => None
  | (k', v) :: d' => if String.eqb k' k then Some v else assoc k d'
  end.

(** [repr] of a key made of letters, digits and underscores *)
Definition repr_ident (k : string) : string := "'" ++ k ++ "'".

(** [v[k]] for a string key [k] *)
Definition getitem_str (v : json) (k : string) : res json :=
  match v with
  | JObj d =>
      match assoc k d with
      | Some x => Ok x
      | None => Raise (KeyError (repr_ident k))
      end
  | _ => Raise TypeError
  end.

(** [v[i]] for an integer index [i >= 0] *)
Definition getitem_int (v : json) (i : nat) : res json :=
  match v with
  | JArr l => list_getitem l i
  | JStr s =>
      match String.get i s with
      | Some c => Ok (JStr (String c EmptyString))
      | None => Raise IndexError
      end
  | JObj _ => Raise (KeyError (PyStr.str_of_nat i))
  | _ => Raise TypeError
  end.

(** [a == b] *)
Fixpoint py_eq (a b : json) {struct a} : bool :=
  match a, b with
  | JNull, JNull => true
  | JBool x, JBool y => Bool.eqb x y
  | JBool x, JInt y => Z.eqb (Z.b2z x) y
  | JInt x, JBool y => Z.eqb x (Z.b2z y)
  | JInt x, JInt y => Z.eqb x y
  | JStr x, JStr y => String.eqb x y
  | JArr la, JArr lb =>
      (fix all2 (la lb : list json) {struct la} : bool :=
         match la, lb with
         | [], [] => true
         | x :: la', y :: lb' => py_eq x y && all2 la' lb'
         | _, _ => false
         end) la lb
  | JObj da, JObj db =>
      Nat.eqb (List.length da) (List.length db)
      && (fix sub (da : list (string * json)) {struct da} : bool :=
            match da with
            | [] => true
            | (k, x) :: da' =>
                match assoc k db with
                | Some y => py_eq x y && sub da'
                | None => false
                end
            end) da
  | _, _ => false
  end.

(** [a != b] *)
Definition py_ne (a b : json) : bool := negb (py_eq a b).

End Json.

(* ================================================================== *)
(** * Dates *)
(* ================================================================== *)

(** A [datetime] value, as [datetime.now()] returns it. *)
Record datetime : Type := mkDatetime {
  year : nat;
  month : nat;
  day : nat;
  hour : nat;
  minute : nat;
  second : nat
}.

Module Datetime.

(** A two-digit, zero-padded field ([%m], [%d], [%H], [%M], [%S]) *)
Definition pad2 (n : nat) : string :=
  if (n <? 10)%nat then "0" ++ PyStr.str_of_nat n else PyStr.str_of_nat n.

(** One directive of [strftime] *)
Definition directive (dt : datetime) (d : ascii) : string :=
  match d with
  | "Y"%char => PyStr.str_of_nat (year dt)
  | "m"%char => pad2 (month dt)
  | "d"%char => pad2 (day dt)
  | "H"%char => pad2 (hour dt)
  | "M"%char => pad2 (minute dt)
  | "S"%char => pad2 (second dt)
  | _ => String "%" (String d EmptyString)
  end.

(** [dt.strftime(fmt)] for the directives above; every other character
    of the format is copied. *)
Fixpoint strftime (dt : datetime) (fmt : string) : string :=
  match fmt with
  | EmptyString => EmptyString
  | String "%" (String d rest) => directive dt d ++ strftime dt rest
  | String c rest => String c (strftime dt rest)
  end.

(** The values a clock reading has: four-digit year, calendar month and
    day, time of day. *)
Definition valid (dt : datetime) : Prop :=
  (1000 <= year dt < 10 * 1000 /\ 1 <= month dt <= 12 /\ 1 <= day dt <= 31
   /\ hour dt <= 23 /\ minute dt <= 59 /\ second dt <= 59)%nat.

Definition is_digit (c : ascii) : bool :=
  let n := nat_of_ascii c in ((48 <=? n) && (n <=? 57))%nat.

(** Two decimal digits, four decimal digits *)
Definition two_digits (s : string) : bool :=
  match s with
  | String a (String b EmptyString) => is_digit a && is_digit b
  | _ => false
  end.

Definition four_digits (s : string) : bool :=
  match s with
  | String a (String b (String c (String d EmptyString))) =>
      is_digit a && is_digit b && is_digit c && is_digit d
  | _ => false
  end.

(** Does [s] read YYYY-MM-DD at HH:MM:SS ? *)
Definition is_timestamp (s : string) : bool :=
  match list_ascii_of_string s with
  | [y1; y2; y3; y4; h1; m1; m2; h2; d1; d2; s1; a; t; s2;
     H1; H2; c1; M1; M2; c2; S1; S2] =>
      forallb is_digit [y1; y2; y3; y4; m1; m2; d1; d2; H1; H2; M1; M2; S1; S2]
      && String.eqb (string_of_list_ascii [h1; h2; s1; a; t; s2; c1; c2])
                    "-- at ::"
  | _ => false
  end.

End Datetime.

(* ================================================================== *)
(** * The HTTP exchange and the machine the script runs on *)
(* ================================================================== *)

(** The [urllib.request.Request] the wrapper builds.  [data] is [None]
    when the wrapper passes its empty placeholder, and the encoded body
    otherwise. *)
Record Request : Type := mkRequest {
  url : string;
  method : string;
  req_headers : list (string * string);
  data : option string
}.

(** The dict the wrapper returns. *)
Record HttpResponse : Type := mkResponse {
  status : Z;
  headers : list (string * string);
  content : string
}.

(** What the body of the wrapper's [try] comes to: the three values read
    from the open response ([uo.status], [uo.headers] and the decoded
    [uo.read()]), or an exception (class name, line of the
    traceback, [str] of the exception) raised by [urlopen], [read] or
    [decode]. *)
Inductive UrlopenResult : Type :=
| Responded (status : Z) (headers : list (string * string)) (content : string)
| Failed (cls : string) (tb_lineno : nat) (msg : string).

(** One call of [urlopen], as it was made. *)
Record HttpCall : Type := mkCall {
  call_request : Request;
  call_timeout : Z
}.

(** The [.env] entry next to the script: nothing there, something that
    is not a regular file, a regular file with the lines [readlines]
    returns, or a regular file that [open] or [readlines] fails on
    (no permission, bytes that do not decode), with the class and the
    text of the exception raised. *)
Inductive DotenvEntry : Type :=
| NoEntry
| NotAFile
| RegularFile (readlines : list string)
| UnreadableFile (cls msg : string).

(** Library functions whose results the script passes through. *)
Record PyLib : Type := mkPyLib {
  loads : string -> res json;
  dumps : json -> string;
  urlencode : list (string * string) -> string;
  (** [str(v)] for a value that is not a [str] *)
  repr_value : json -> string;
  (** [str(req)] for the dict the wrapper returns *)
  repr_response : HttpResponse -> string
}.

(** The inputs of one run.  [urlopen] answers a request given the calls
    made before it and the timeout. *)
Record World : Type := mkWorld {
  dotenv_path : string;
  dotenv : DotenvEntry;
  environ : string -> option string;
  urlopen : list HttpCall -> Request -> Z -> UrlopenResult;
  now : datetime
}.

(* ================================================================== *)
(** * Processes *)
(* ================================================================== *)

(** What a run has done so far. *)
Record Proc : Type := mkProc {
  stdout : list string;
  calls : list HttpCall
}.

Inductive Outcome (A : Type) : Type :=
| Return (a : A)
| SystemExit (code : Z)
| Uncaught (e : pyexn).
Arguments Return {A} a.
Arguments SystemExit {A} code.
Arguments Uncaught {A} e.

Definition M (A : Type) : Type := Proc -> Proc * Outcome A.

Definition ret {A} (a : A) : M A := fun p => (p, Return a).

Definition bind {A B} (m : M A) (k : A -> M B) : M B :=
  fun p =>
    match m p with
    | (p', Return a) => k a p'
    | (p', SystemExit c) => (p', SystemExit c)
    | (p', Uncaught e) => (p', Uncaught e)
    end.

Declare Scope proc_scope.
Delimit Scope proc_scope with proc.
Notation "x <- m ;; k" := (bind m (fun x => k))
  (at level 61, m at next level, right associativity) : proc_scope.
Notation "' pat <- m ;; k" := (bind m (fun x => match x with pat => k end))
  (at level 61, pat pattern, m at next level, right associativity) : proc_scope.
Notation "m ;; k" := (bind m (fun _ => k))
  (at level 61, right associativity) : proc_scope.
Local Open Scope proc_scope.

(** [print(s)] *)
Definition print (s : string) : M unit :=
  fun p => (mkProc (stdout p ++ [s])%list (calls p), Return tt).

(** [exit(code)] *)
Definition exit {A} (code : Z) : M A := fun p => (p, SystemExit code).

(** An expression evaluated where nothing catches what it raises. *)
Definition eval {A} (r : res A) : M A :=
  fun p => match r with
           | Ok a => (p, Return a)
           | Raise e => (p, Uncaught e)
           end.

(** The exit status the interpreter gives the process: the argument of
    [exit], 1 after an uncaught exception, 0 at the end of the script. *)
Definition exit_status {A} (o : Outcome A) : Z :=
  match o with
  | Return _ => 0
  | SystemExit c => c
  | Uncaught _ => 1
  end.

(** The class named on the last line of the traceback the interpreter
    writes to stderr for an uncaught exception. *)
Definition traceback {A} (o : Outcome A) : option string :=
  match o with
  | Uncaught e => Some (exn_class e)
  | _ => None
  end.

(* ================================================================== *)
(** * The script *)
(* ================================================================== *)

Definition CLOUDFLARE_API : string := "https://api.cloudflare.com/client/v4/zones".
Definition TIMEOUT : Z := 30.

Section Script.

Variable lib : PyLib.
Variable w : World.

(** [f"{v}"]: a [str] as it is, any other value through [str]. *)
Definition py_str (v : json) : string :=
  match v with
  | JStr s => s
  | _ => repr_value lib v
  end.

(** [urlopen(formed_request, timeout=...)] with the three reads of the
    [with] block; the call is recorded. *)
Definition do_urlopen (formed_request : Request) (timeout : Z) : M UrlopenResult :=
  fun p =>
    (mkProc (stdout p) (calls p ++ [mkCall formed_request timeout])%list,
     Return (urlopen w (calls p) formed_request timeout)).

(** [__http_request(url, method, headers, data, params)] *)
Definition __http_request (url method : string)
    (headers : list (string * string)) (data : list (string * json))
    (params : list (string * string)) : M HttpResponse :=
  let url :=
    match params with
    | [] => url
    | _ => url ++ "?" ++ urlencode lib params
    end in
  let formed_request :=
    mkRequest url (PyStr.upper method) headers
      match data with
      | [] => None
      | _ => Some (dumps lib (JObj data))
      end in
  attempt <- do_urlopen formed_request TIMEOUT ;;
  match attempt with
  | Responded status headers content => ret (mkResponse status headers content)
  | Failed cls lineno msg =>
      print ("Unexpected exception during HTTP request: " ++ cls ++ " at "
             ++ PyStr.str_of_nat lineno ++ ": " ++ msg) ;;
      exit 1
  end.

(** [[l[1] for l in lines if l[0] == key]] *)
Fixpoint values_of (key : string) (lines : list (list string)) : res (list string) :=
  match lines with
  | [] => Ok []
  | l :: lines' =>
      res_bind (list_getitem l 0) (fun k =>
        if String.eqb k key then
          res_bind (list_getitem l 1) (fun v =>
          res_bind (values_of key lines') (fun vs => Ok (v :: vs)))
        else values_of key lines')
  end.

(** [[l[1] for l in lines if l[0] == key][0]] *)
Definition first_value_of (key : string) (lines : list (list string)) : res string :=
  res_bind (values_of key lines) (fun vs => list_getitem vs 0).

(** [try: x = e] / [except IndexError: handler] *)
Definition try_except_IndexError {A} (e : res A) (handler : M A) : M A :=
  match e with
  | Ok a => ret a
  | Raise IndexError => handler
  | Raise other => eval (Raise other)
  end.

(** [[l.strip().split('=', 1) for l in fo.readlines()]] *)
Definition format_lines (readlines : list string) : list (list string) :=
  map (fun l => PyStr.split1 "=" (PyStr.strip l)) readlines.

(** [environ[k]] *)
Definition environ_getitem (k : string) : res string :=
  match environ w k with
  | Some v => Ok v
  | None => Raise (KeyError (Json.repr_ident k))
  end.

(** [_read_envs()] *)
Definition _read_envs : M (string * string * string) :=
  match dotenv w with
  | RegularFile readlines =>
      print (".env file found at " ++ dotenv_path w) ;;
      let lines := format_lines readlines in
      api_key <- try_except_IndexError (first_value_of "api_key" lines)
                   (print "Key 'api_key' missing from .env file!" ;; exit 1) ;;
      zone_name <- try_except_IndexError (first_value_of "zone_name" lines)
                     (print "Key 'zone_name' missing from .env file!" ;; exit 1) ;;
      zone_id <- try_except_IndexError (first_value_of "zone_id" lines)
                   (print "Key 'zone_id' missing from .env file!" ;; exit 1) ;;
      ret (api_key, zone_name, zone_id)
  | UnreadableFile cls msg =>
      print (".env file found at " ++ dotenv_path w) ;;
      eval (Raise (LibError cls msg))
  | NoEntry | NotAFile =>
      print ("No .env file found at " ++ dotenv_path w
             ++ ", reading environment instead") ;;
      match res_bind (environ_getitem "api_key") (fun a =>
            res_bind (environ_getitem "zone_name") (fun n =>
            res_bind (environ_getitem "zone_id") (fun z => Ok (a, n, z)))) with
      | Ok t => ret t
      | Raise (KeyError e) =>
          print ("Key '" ++ e ++ "' missing from environment variables!") ;;
          exit 1
      | Raise other => eval (Raise other)
      end
  end.

(** [check_public_ip()] *)
Definition check_public_ip : M json :=
  req <- __http_request "https://api.ipify.org" "GET" [] [] [("format", "json")] ;;
  if Z.eqb (status req) 200 then
    ans <- eval (res_bind (loads lib (content req)) (fun doc =>
                 Json.getitem_str doc "ip")) ;;
    ret ans
  else
    print ("Non-200 response when checking public IP: " ++ repr_response lib req) ;;
    exit 1.

(** [check_zone_apex(api_key, name, zone_id)] *)
Definition check_zone_apex (api_key name zone_id : string) : M (json * json) :=
  let url := CLOUDFLARE_API ++ "/" ++ zone_id ++ "/dns_records" in
  req <- __http_request url "GET"
           [("Authorization", "Bearer " ++ api_key)]
           []
           [("name", name); ("type", "A")] ;;
  if Z.eqb (status req) 200 then
    ans <- eval (res_bind (loads lib (content req)) (fun doc =>
                 res_bind (Json.getitem_str doc "result") (fun result =>
                 Json.getitem_int result 0))) ;;
    r_ip <- eval (Json.getitem_str ans "content") ;;
    r_id <- eval (Json.getitem_str ans "id") ;;
    ret (r_ip, r_id)
  else
    print ("Got non-200 response: " ++ repr_response lib req) ;;
    exit 1.

(** [update_zone_apex(api_key, zone_id, record_id, old_ip, new_ip)] *)
Definition update_zone_apex (api_key zone_id : string)
    (record_id old_ip new_ip : json) : M unit :=
  let url := CLOUDFLARE_API ++ "/" ++ zone_id ++ "/dns_records/" ++ py_str record_id in
  let dstr := Datetime.strftime (now w) "%Y-%m-%d at %H:%M:%S" in
  req <- __http_request url "PATCH"
           [("Authorization", "Bearer " ++ api_key);
            ("Content-Type", "application/json")]
           [("comment", JStr ("Updated from " ++ py_str old_ip ++ " on " ++ dstr));
            ("content", new_ip)]
           [] ;;
  if Z.eqb (status req) 200 then
    print "Record content and comment updated successfully!" ;;
    ret tt
  else
    print ("Non-200 response while updating record: " ++ repr_response lib req) ;;
    exit 1.

(** The lines of the main block that print what was found (242-246). *)
Definition announce (api_key name zone_id : string) : M unit :=
  print "Found environment variables:" ;;
  print ("API key: " ++ PyStr.slice_to 3 api_key ++ "..." ++ PyStr.slice_last 3 api_key) ;;
  print ("Zone   : " ++ name) ;;
  print ("Zone ID: " ++ PyStr.slice_to 3 zone_id ++ "..." ++ PyStr.slice_last 3 zone_id) ;;
  print (PyStr.repeat_char "=" 20 ++ PyStr.newline).

(** The lines of the main block that compare and update (249-261). *)
Definition reconcile (api_key name zone_id : string) : M unit :=
  public_ip <- check_public_ip ;;
  '(existing_ip, record_id) <- check_zone_apex api_key name zone_id ;;
  if Json.py_ne public_ip existing_ip then
    print ("IPs do not match (apparent=" ++ py_str public_ip
           ++ " | recorded=" ++ py_str existing_ip ++ ")") ;;
    update_zone_apex api_key zone_id record_id existing_ip public_ip ;;
    exit 0
  else
    print ("IPs are consistent (apparent=" ++ py_str public_ip
           ++ " | recorded=" ++ py_str existing_ip ++ ")") ;;
    exit 0.

(** The main block. *)
Definition main : M unit :=
  '(api_key, name, zone_id) <- _read_envs ;;
  announce api_key name zone_id ;;
  reconcile api_key name zone_id.

(** A run of the script from a fresh process. *)
Definition run : Proc * Outcome unit := main (mkProc [] []).

End Script.

(* ================================================================== *)
(** * Vocabulary of the specification *)
(* ================================================================== *)

(** A call that changes the zone: every method but the reads. *)
Definition is_mutating (r : Request) : bool :=
  existsb (String.eqb (method r)) ["PATCH"; "PUT"; "POST"; "DELETE"].

Definition mutating_calls (p : Proc) : list HttpCall :=
  filter (fun c => is_mutating (call_request c)) (calls p).

(** The request of [check_public_ip] *)
Definition ip_request (lib : PyLib) : Request :=
  mkRequest ("https://api.ipify.org" ++ "?" ++ urlencode lib [("format", "json")])
    "GET" [] None.

(** The request of [check_zone_apex] *)
Definition zone_request (lib : PyLib) (api_key name zone_id : string) : Request :=
  mkRequest ((CLOUDFLARE_API ++ "/" ++ zone_id ++ "/dns_records") ++ "?"
             ++ urlencode lib [("name", name); ("type", "A")])
    "GET" [("Authorization", "Bearer " ++ api_key)] None.

(** The request of [update_zone_apex], given the text of its comment *)
Definition patch_request (lib : PyLib) (api_key zone_id : string)
    (record_id : json) (comment : string) (new_ip : json) : Request :=
  mkRequest (CLOUDFLARE_API ++ "/" ++ zone_id ++ "/dns_records/" ++ py_str lib record_id)
    "PATCH"
    [("Authorization", "Bearer " ++ api_key); ("Content-Type", "application/json")]
    (Some (dumps lib (JObj [("comment", JStr comment); ("content", new_ip)]))).

(** What [check_public_ip] reads in the body of the address service *)
Definition parsed_ip (lib : PyLib) (content : string) : res json :=
  res_bind (loads lib content) (fun doc => Json.getitem_str doc "ip").

(** What [check_zone_apex] reads in the body of the zone lookup: the
    [content] and the [id] of the first element of [result] *)
Definition parsed_record (lib : PyLib) (content : string) : res (json * json) :=
  res_bind (loads lib content) (fun doc =>
  res_bind (Json.getitem_str doc "result") (fun result =>
  res_bind (Json.getitem_int result 0) (fun ans =>
  res_bind (Json.getitem_str ans "content") (fun r_ip =>
  res_bind (Json.getitem_str ans "id") (fun r_id => Ok (r_ip, r_id)))))).

(** The line the wrapper prints for an exception *)
Definition transport_report (cls : string) (lineno : nat) (msg : string) : string :=
  "Unexpected exception during HTTP request: " ++ cls ++ " at "
  ++ PyStr.str_of_nat lineno ++ ": " ++ msg.

(** The format of the comment's date *)
Definition comment_date (w : World) : string :=
  Datetime.strftime (now w) "%Y-%m-%d at %H:%M:%S".

(** The comment of the update *)
Definition update_comment (lib : PyLib) (w : World) (old_ip : json) : string :=
  "Updated from " ++ py_str lib old_ip ++ " on " ++ comment_date w.

(** An exchange that did not end in a response of status 200: another
    status, or an exception ([urlopen] raises [HTTPError] for the statuses
    its error handlers do not accept). *)
Definition not_200 (r : UrlopenResult) : Prop :=
  match r with
  | Responded status _ _ => status <> 200%Z
  | Failed _ _ _ => True
  end.

(** The message of [_read_envs] for a key missing from the file *)
Definition missing_from_file (key : string) : string :=
  "Key '" ++ key ++ "' missing from .env file!".

Definition required_keys : list string := ["api_key"; "zone_name"; "zone_id"].

(** The required keys [_read_envs] looks up before [key] *)
Fixpoint take_until (key : string) (keys : list string) : list string :=
  match keys with
  | [] => []
  | k :: keys' => if String.eqb k key then [] else k :: take_until key keys'
  end.

Definition keys_before (key : string) : list string := take_until key required_keys.

(** Does the lookup of [key] in the formatted lines have a value? *)
Definition resolves (key : string) (lines : list (list string)) : bool :=
  match first_value_of key lines with
  | Ok _ => true
  | Raise _ => false
  end.

(** The first required key, in the order [_read_envs] looks them up,
    whose lookup has no value *)
Definition first_unresolved (lines : list (list string)) : option string :=
  find (fun key => negb (resolves key lines)) required_keys.

(** No line of the file has [key] on the left of its first [=]. *)
Definition key_absent (key : string) (readlines : list string) : Prop :=
  forall l, In l (format_lines readlines) -> nth_error l 0 <> Some key.

(** The lines of [_read_envs] when it falls back on the environment.
    [str] of a [KeyError] is the [repr] of its key, so the key comes
    between two pairs of quotes. *)
Definition no_file_line (w : World) : string :=
  "No .env file found at " ++ dotenv_path w ++ ", reading environment instead".

Definition missing_from_environ (key : string) : string :=
  "Key '" ++ Json.repr_ident key ++ "' missing from environment variables!".

(** A string of white space only *)
Definition all_space (s : string) : bool :=
  forallb PyStr.isspace (list_ascii_of_string s).

(* ================================================================== *)
(** * A small library and worlds to run the script on *)
(* ================================================================== *)

Module Demo.

Definition dq : string := String (ascii_of_nat 34) EmptyString.
Definition quoted (s : string) : string := dq ++ s ++ dq.

(** The body [api.ipify.org] answers with *)
Definition ip_doc (ip : string) : string :=
  "{" ++ quoted "ip" ++ ":" ++ quoted ip ++ "}".

(** The body of a zone lookup with one record *)
Definition zone_doc (ip id : string) : string :=
  "{" ++ quoted "result" ++ ":[{" ++ quoted "content" ++ ":" ++ quoted ip ++ ","
  ++ quoted "id" ++ ":" ++ quoted id ++ "}]}".

(** The body of a zone lookup with no record *)
Definition empty_zone_doc : string := "{" ++ quoted "result" ++ ":[]}".

Definition ip_value (ip : string) : json := JObj [("ip", JStr ip)].
Definition zone_value (ip id : string) : json :=
  JObj [("result", JArr [JObj [("content", JStr ip); ("id", JStr id)]])].

(** [json.loads] on the documents above *)
Definition loads (s : string) : res json :=
  if String.eqb s (ip_doc "1.2.3.4") then Ok (ip_value "1.2.3.4")
  else if String.eqb s (ip_doc "5.6.7.8") then Ok (ip_value "5.6.7.8")
  else if String.eqb s (zone_doc "1.2.3.4" "R1") then Ok (zone_value "1.2.3.4" "R1")
  else if String.eqb s empty_zone_doc then Ok (JObj [("result", JArr [])])
  else Raise (LibError "JSONDecodeError" "Expecting value").

(** [json.dumps] on a dict of plain strings *)
Fixpoint dumps_fields (d : list (string * json)) : string :=
  match d with
  | [] => EmptyString
  | (k, v) :: d' =>
      quoted k ++ ": " ++ match v with JStr s => quoted s | _ => "null" end
      ++ match d' with [] => EmptyString | _ => ", " ++ dumps_fields d' end
  end.

Definition dumps (v : json) : string :=
  match v with
  | JObj d => "{" ++ dumps_fields d ++ "}"
  | JStr s => quoted s
  | _ => "null"
  end.

(** [urlencode] on keys and values that need no quoting *)
Fixpoint urlencode (params : list (string * string)) : string :=
  match params with
  | [] => EmptyString
  | (k, v) :: params' =>
      k ++ "=" ++ v ++ match params' with [] => EmptyString | _ => "&" ++ urlencode params' end
  end.

Definition lib : PyLib :=
  mkPyLib loads dumps urlencode (fun _ => "None") (fun r => content r).

(** A network: the address service reports [public], the zone lookup
    answers [zone] and the update answers [patched]. *)
Definition network (public : string) (zone patched : UrlopenResult)
    (history : list HttpCall) (r : Request) (timeout : Z) : UrlopenResult :=
  if String.eqb (method r) "PATCH" then patched
  else if prefix "https://api.ipify.org" (url r) then Responded 200 [] (ip_doc public)
  else zone.

Definition env_file : list string :=
  ["api_key=K" ++ PyStr.newline; "zone_name=example.com" ++ PyStr.newline;
   "zone_id=Z1" ++ PyStr.newline].

Definition clock : datetime := mkDatetime 2024 3 9 7 5 0.

Definition world (public : string) (zone patched : UrlopenResult) : World :=
  mkWorld "/opt/cfddns/.env" (RegularFile env_file) (fun _ => None)
    (network public zone patched) clock.

(** A file without [zone_id], in a process whose environment has it *)
Definition partial_file_world : World :=
  mkWorld "/opt/cfddns/.env"
    (RegularFile ["api_key=K" ++ PyStr.newline; "zone_name=example.com" ++ PyStr.newline])
    (fun k => if String.eqb k "zone_id" then Some "Z1" else None)
    (network "1.2.3.4" (Responded 200 [] empty_zone_doc) (Responded 200 [] "{}")) clock.

(** A file with a bare [zone_id] line and no [api_key] line *)
Definition bare_zone_id_world : World :=
  mkWorld "/opt/cfddns/.env"
    (RegularFile ["zone_name=example.com" ++ PyStr.newline; "zone_id" ++ PyStr.newline])
    (fun _ => None)
    (network "1.2.3.4" (Responded 200 [] empty_zone_doc) (Responded 200 [] "{}")) clock.

(** A file with a bare [api_key] line between two well-formed ones *)
Definition bare_api_key_world : World :=
  mkWorld "/opt/cfddns/.env"
    (RegularFile ["api_key=K" ++ PyStr.newline; "api_key" ++ PyStr.newline;
                  "api_key=K2" ++ PyStr.newline; "zone_name=example.com" ++ PyStr.newline;
                  "zone_id=Z1" ++ PyStr.newline])
    (fun _ => None)
    (network "1.2.3.4" (Responded 200 [] empty_zone_doc) (Responded 200 [] "{}")) clock.

(** No [.env] file, the three variables in the environment *)
Definition environment (k : string) : option string :=
  if String.eqb k "api_key" then Some "K"
  else if String.eqb k "zone_name" then Some "example.com"
  else if String.eqb k "zone_id" then Some "Z1"
  else None.

Definition env_world : World :=
  mkWorld "/opt/cfddns/.env" NoEntry environment
    (network "1.2.3.4" (Responded 200 [] (zone_doc "1.2.3.4" "R1")) (Responded 200 [] "{}"))
    clock.

(** [.env] is a directory, and the environment lacks [zone_name] *)
Definition env_missing_world : World :=
  mkWorld "/opt/cfddns/.env" NotAFile
    (fun k => if String.eqb k "zone_name" then None else environment k)
    (network "1.2.3.4" (Responded 200 [] (zone_doc "1.2.3.4" "R1")) (Responded 200 [] "{}"))
    clock.

(** A file without [zone_id], with [api_key] given and also alone on a
    line, in a process whose environment has [zone_id] *)
Definition bare_api_key_no_zone_id_world : World :=
  mkWorld "/opt/cfddns/.env"
    (RegularFile ["api_key=K" ++ PyStr.newline; "api_key" ++ PyStr.newline;
                  "zone_name=example.com" ++ PyStr.newline])
    (fun k => if String.eqb k "zone_id" then Some "Z1" else None)
    (network "1.2.3.4" (Responded 200 [] empty_zone_doc) (Responded 200 [] "{}")) clock.

(** A [.env] file that cannot be opened, in a process whose environment
    has the three variables *)
Definition unreadable_file_world : World :=
  mkWorld "/opt/cfddns/.env"
    (UnreadableFile "PermissionError" "[Errno 13] Permission denied: '/opt/cfddns/.env'")
    environment
    (network "1.2.3.4" (Responded 200 [] (zone_doc "1.2.3.4" "R1")) (Responded 200 [] "{}"))
    clock.

Definition fresh : Proc := mkProc [] [].

Definition one_record : UrlopenResult := Responded 200 [] (zone_doc "1.2.3.4" "R1").
Definition patch_ok : UrlopenResult := Responded 200 [] "{}".

(** The three end-to-end scenarios of the specification *)
Definition scenario1 : World := world "1.2.3.4" one_record patch_ok.
Definition scenario2 : World := world "5.6.7.8" one_record patch_ok.
Definition scenario3 : World :=
  world "5.6.7.8" (Failed "HTTPError" 77 "HTTP Error 403: Forbidden") patch_ok.

End Demo.

(* ================================================================== *)
(** * Facts about strings *)
(* ================================================================== *)

Lemma rstrip_cons_nonspace (c : ascii) (s : string) :
  PyStr.isspace c = false ->
  PyStr.rstrip (String c s) = String c (PyStr.rstrip s).
Proof.
  intros Hc. simpl. destruct (PyStr.rstrip s); rewrite ?Hc; reflexivity.
Qed.

Lemma rstrip_newline (s : string) :
  PyStr.rstrip (s ++ PyStr.newline) = PyStr.rstrip s.
Proof.
  induction s as [|c s IH]; simpl.
  - reflexivity.
  - rewrite IH. reflexivity.
Qed.

Lemma rstrip_eol (s eol : string) :
  eol = EmptyString \/ eol = PyStr.newline ->
  PyStr.rstrip (s ++ eol) = PyStr.rstrip s.
Proof.
  intros [-> | ->].
  - replace (s ++ EmptyString) with s; [reflexivity|].
    induction s as [|c s IH]; simpl; [|rewrite <- IH]; reflexivity.
  - apply rstrip_newline.
Qed.

(** A line that starts with [api_key=] and is stripped. *)
Lemma strip_api_key_line (v eol : string) :
  eol = EmptyString \/ eol = PyStr.newline ->
  PyStr.rstrip v = v ->
  PyStr.strip ("api_key=" ++ v ++ eol) = "api_key=" ++ v.
Proof.
  intros Heol Hv. unfold PyStr.strip.
  change (PyStr.lstrip ("api_key=" ++ v ++ eol)) with ("api_key=" ++ v ++ eol).
  change ("api_key=" ++ v ++ eol)
    with (String "a" (String "p" (String "i" (String "_" (String "k"
           (String "e" (String "y" (String "=" (v ++ eol))))))))).
  rewrite !rstrip_cons_nonspace by reflexivity.
  rewrite (rstrip_eol v eol Heol), Hv. reflexivity.
Qed.

Lemma split1_first_separator (sep : ascii) (k v : string) :
  PyStr.partition sep k = None ->
  PyStr.split1 sep (k ++ String sep v) = [k; v].
Proof.
  unfold PyStr.split1. intros Hk.
  assert (H : PyStr.partition sep (k ++ String sep v) = Some (k, v)).
  { induction k as [|c k IH]; simpl in *.
    - rewrite Ascii.eqb_refl. reflexivity.
    - destruct (Ascii.eqb c sep); [discriminate|].
      destruct (PyStr.partition sep k) as [[a b]|]; [discriminate|].
      rewrite IH by reflexivity. reflexivity. }
  rewrite H. reflexivity.
Qed.

(* ================================================================== *)
(** * Facts about dates *)
(* ================================================================== *)

Lemma pad2_two_digits (n : nat) : n <= 99 -> Datetime.two_digits (Datetime.pad2 n) = true.
Proof.
  intros Hn.
  assert (Hall : forallb (fun n => Datetime.two_digits (Datetime.pad2 n)) (seq 0 100) = true)
    by (vm_compute; reflexivity).
  rewrite forallb_forall in Hall. apply Hall. apply in_seq. lia.
Qed.

Lemma year_four_digits (y : nat) :
  1000 <= y < 10 * 1000 -> Datetime.four_digits (PyStr.str_of_nat y) = true.
Proof.
  intros Hy.
  assert (Hall : forallb (fun y => Datetime.four_digits (PyStr.str_of_nat y)) (seq 1000 (9 * 1000)) = true)
    by (vm_compute; reflexivity).
  rewrite forallb_forall in Hall. apply Hall. apply in_seq. lia.
Qed.

Lemma strftime_is_timestamp (dt : datetime) :
  Datetime.valid dt ->
  Datetime.is_timestamp (Datetime.strftime dt "%Y-%m-%d at %H:%M:%S") = true.
Proof.
  intros (Hy & Hm & Hd & HH & HM & HS).
  pose proof (year_four_digits (year dt) Hy) as Ey.
  pose proof (pad2_two_digits (month dt) ltac:(lia)) as Em.
  pose proof (pad2_two_digits (day dt) ltac:(lia)) as Ed.
  pose proof (pad2_two_digits (hour dt) ltac:(lia)) as EH.
  pose proof (pad2_two_digits (minute dt) ltac:(lia)) as EM.
  pose proof (pad2_two_digits (second dt) ltac:(lia)) as ES.
  cbn [Datetime.strftime Datetime.directive].
  destruct (PyStr.str_of_nat (year dt)) as [|y1 [|y2 [|y3 [|y4 [|? ?]]]]];
    try discriminate Ey.
  destruct (Datetime.pad2 (month dt)) as [|m1 [|m2 [|? ?]]]; try discriminate Em.
  destruct (Datetime.pad2 (day dt)) as [|d1 [|d2 [|? ?]]]; try discriminate Ed.
  destruct (Datetime.pad2 (hour dt)) as [|H1 [|H2 [|? ?]]]; try discriminate EH.
  destruct (Datetime.pad2 (minute dt)) as [|M1 [|M2 [|? ?]]]; try discriminate EM.
  destruct (Datetime.pad2 (second dt)) as [|S1 [|S2 [|? ?]]]; try discriminate ES.
  cbn [Datetime.two_digits Datetime.four_digits] in *.
  repeat match goal with
         | H : (_ && _)%bool = true |- _ => apply andb_prop in H; destruct H
         end.
  unfold Datetime.is_timestamp.
  cbn [append list_ascii_of_string string_of_list_ascii forallb].
  repeat match goal with
         | H : Datetime.is_digit _ = true |- _ => rewrite H; clear H
         end.
  reflexivity.
Qed.

(* ================================================================== *)
(** * Facts about the credential resolver *)
(* ================================================================== *)

Lemma values_of_cons (key : string) (l : list string) (lines : list (list string)) :
  values_of key (l :: lines) =
    match nth_error l 0 with
    | None => Raise IndexError
    | Some k =>
        if String.eqb k key then
          match nth_error l 1 with
          | None => Raise IndexError
          | Some v =>
              match values_of key lines with
              | Ok vs => Ok (v :: vs)
              | Raise e => Raise e
              end
          end
        else values_of key lines
    end.
Proof.
  cbn [values_of]. unfold list_getitem.
  destruct (nth_error l 0) as [k|]; [|reflexivity]. cbn [res_bind].
  destruct (String.eqb k key); [|reflexivity].
  destruct (nth_error l 1) as [v|]; reflexivity.
Qed.

Lemma values_of_raises (key : string) (lines : list (list string)) (e : pyexn) :
  values_of key lines = Raise e -> e = IndexError.
Proof.
  induction lines as [|l lines IH]; [discriminate|].
  rewrite values_of_cons.
  destruct (nth_error l 0) as [k|]; [|intros; congruence].
  destruct (String.eqb k key); [|exact IH].
  destruct (nth_error l 1) as [v|]; [|intros; congruence].
  destruct (values_of key lines) as [vs|e']; [discriminate|].
  intros [= <-]. apply IH. reflexivity.
Qed.

Lemma first_value_of_raises (key : string) (lines : list (list string)) (e : pyexn) :
  first_value_of key lines = Raise e -> e = IndexError.
Proof.
  unfold first_value_of.
  destruct (values_of key lines) as [vs|e'] eqn:Hv; cbn [res_bind].
  - unfold list_getitem. destruct (nth_error vs 0); intros; congruence.
  - intros [= <-]. eapply values_of_raises; eassumption.
Qed.

(** No line with the key: the comprehension is empty. *)
Lemma values_of_absent (key : string) (lines : list (list string)) :
  (forall l, In l lines -> nth_error l 0 <> Some key) ->
  (forall l, In l lines -> l <> []) ->
  values_of key lines = Ok [].
Proof.
  induction lines as [|l lines IH]; intros Hk Hne; [reflexivity|].
  rewrite values_of_cons.
  destruct l as [|k l']; [exfalso; apply (Hne []); [left|]; reflexivity|].
  cbn [nth_error]. destruct (String.eqb_spec k key) as [->|_].
  - exfalso. apply (Hk (key :: l')); [left|]; reflexivity.
  - apply IH; intros; [apply Hk | apply Hne]; right; assumption.
Qed.

Lemma format_lines_nonempty (readlines : list string) (l : list string) :
  In l (format_lines readlines) -> l <> [].
Proof.
  unfold format_lines. rewrite in_map_iff. intros (s & <- & _).
  unfold PyStr.split1. destruct (PyStr.partition "=" (PyStr.strip s)) as [[a b]|];
    discriminate.
Qed.

Lemma first_value_of_absent (key : string) (readlines : list string) :
  key_absent key readlines ->
  first_value_of key (format_lines readlines) = Raise IndexError.
Proof.
  intros Habs. unfold first_value_of.
  rewrite values_of_absent; [reflexivity | exact Habs | apply format_lines_nonempty].
Qed.

(** A line that is the bare key makes the comprehension raise. *)
Lemma values_of_bare (key : string) (lines : list (list string)) :
  In [key] lines -> values_of key lines = Raise IndexError.
Proof.
  induction lines as [|l lines IH]; [intros []|].
  rewrite values_of_cons. intros [-> | Hin].
  - cbn [nth_error]. rewrite String.eqb_refl. reflexivity.
  - rewrite (IH Hin).
    destruct (nth_error l 0) as [k|]; [|reflexivity].
    destruct (String.eqb k key); [|reflexivity].
    destruct (nth_error l 1) as [v|]; reflexivity.
Qed.

Lemma first_value_of_bare (key : string) (readlines : list string) (l : string) :
  In l readlines -> PyStr.strip l = key -> PyStr.partition "=" key = None ->
  first_value_of key (format_lines readlines) = Raise IndexError.
Proof.
  intros Hin Hl Hk. unfold first_value_of. rewrite values_of_bare; [reflexivity|].
  unfold format_lines. apply in_map_iff. exists l. split; [|assumption].
  rewrite Hl. unfold PyStr.split1. rewrite Hk. reflexivity.
Qed.

Lemma values_of_app (key : string) (l1 l2 : list (list string)) (vs : list string) :
  values_of key l1 = Ok [] -> values_of key l2 = Ok vs ->
  values_of key (l1 ++ l2) = Ok vs.
Proof.
  induction l1 as [|l l1 IH]; intros H1 H2; [assumption|].
  rewrite <- app_comm_cons. rewrite values_of_cons in *.
  destruct (nth_error l 0) as [k|]; [|discriminate].
  destruct (String.eqb k key); [|auto].
  destruct (nth_error l 1) as [v|]; [|discriminate].
  destruct (values_of key l1); discriminate.
Qed.

Section ResolverFacts.

Variable w : World.

(** What [_read_envs] does when the file is there, by the three lookups. *)
Lemma read_envs_file (readlines : list string) (p : Proc) :
  dotenv w = RegularFile readlines ->
  let lines := format_lines readlines in
  let found := (stdout p ++ [(".env file found at " ++ dotenv_path w)%string])%list in
  let stop key := (mkProc (found ++ [missing_from_file key])%list (calls p),
                   @SystemExit (string * string * string) 1%Z) in
  _read_envs w p =
    match first_value_of "api_key" lines with
    | Raise _ => stop "api_key"
    | Ok k =>
        match first_value_of "zone_name" lines with
        | Raise _ => stop "zone_name"
        | Ok n =>
            match first_value_of "zone_id" lines with
            | Raise _ => stop "zone_id"
            | Ok z => (mkProc found (calls p), Return (k, n, z))
            end
        end
    end.
Proof.
  intros Hfile. unfold _read_envs. rewrite Hfile. cbv zeta.
  unfold bind at 1. cbn [print].
  destruct (first_value_of "api_key" (format_lines readlines)) as [k|e] eqn:Hk.
  2:{ apply first_value_of_raises in Hk. subst e. reflexivity. }
  destruct (first_value_of "zone_name" (format_lines readlines)) as [n|e] eqn:Hn.
  2:{ apply first_value_of_raises in Hn. subst e. reflexivity. }
  destruct (first_value_of "zone_id" (format_lines readlines)) as [z|e] eqn:Hz.
  2:{ apply first_value_of_raises in Hz. subst e. reflexivity. }
  reflexivity.
Qed.

Lemma read_envs_calls (p : Proc) : calls (fst (_read_envs w p)) = calls p.
Proof.
  unfold _read_envs. destruct (dotenv w) as [| |readlines|cls msg] eqn:Hd.
  1,2: unfold bind, print, environ_getitem;
       destruct (environ w "api_key"); simpl; [|reflexivity];
       destruct (environ w "zone_name"); simpl; [|reflexivity];
       destruct (environ w "zone_id"); reflexivity.
  2: reflexivity.
  pose proof (read_envs_file readlines p Hd) as H. unfold _read_envs in H.
  rewrite Hd in H. rewrite H.
  destruct (first_value_of "api_key" _); [|reflexivity].
  destruct (first_value_of "zone_name" _); [|reflexivity].
  destruct (first_value_of "zone_id" _); reflexivity.
Qed.

(** The same, by the first key that does not resolve. *)
Lemma read_envs_first_unresolved (readlines : list string) (p : Proc) :
  dotenv w = RegularFile readlines ->
  let lines := format_lines readlines in
  let found := (stdout p ++ [(".env file found at " ++ dotenv_path w)%string])%list in
  match first_unresolved lines with
  | Some missing =>
      _read_envs w p
      = (mkProc (found ++ [missing_from_file missing])%list (calls p), SystemExit 1%Z)
  | None =>
      exists k n z,
        first_value_of "api_key" lines = Ok k
        /\ first_value_of "zone_name" lines = Ok n
        /\ first_value_of "zone_id" lines = Ok z
        /\ _read_envs w p = (mkProc found (calls p), Return (k, n, z))
  end.
Proof.
  intros Hfile lines found. rewrite (read_envs_file readlines p Hfile). fold lines.
  unfold first_unresolved, required_keys, resolves. cbn [find].
  destruct (first_value_of "api_key" lines) as [k|e]; [|reflexivity].
  destruct (first_value_of "zone_name" lines) as [n|e]; [|reflexivity].
  destruct (first_value_of "zone_id" lines) as [z|e]; [|reflexivity].
  cbn [negb]. exists k, n, z. repeat split.
Qed.

Lemma read_envs_file_unreadable (p : Proc) (cls msg : string) :
  dotenv w = UnreadableFile cls msg ->
  _read_envs w p
  = (mkProc (stdout p ++ [(".env file found at " ++ dotenv_path w)%string])%list (calls p),
     Uncaught (LibError cls msg)).
Proof. intros Hd. unfold _read_envs. rewrite Hd. reflexivity. Qed.

End ResolverFacts.

Lemma first_unresolved_spec (lines : list (list string)) (missing : string) :
  first_unresolved lines = Some missing ->
  In missing required_keys
  /\ first_value_of missing lines = Raise IndexError
  /\ (forall k, In k (keys_before missing) -> exists v, first_value_of k lines = Ok v).
Proof.
  unfold first_unresolved, required_keys, resolves. cbn [find].
  destruct (first_value_of "api_key" lines) as [k|e] eqn:Hk; cbn [negb].
  2:{ intros [= <-]. rewrite (first_value_of_raises _ _ _ Hk) in Hk.
      split; [simpl; auto|]. split; [exact Hk|]. intros k0 []. }
  destruct (first_value_of "zone_name" lines) as [n|e] eqn:Hn; cbn [negb].
  2:{ intros [= <-]. rewrite (first_value_of_raises _ _ _ Hn) in Hn.
      split; [simpl; auto|]. split; [exact Hn|].
      intros k0 [<-|[]]. exists k. exact Hk. }
  destruct (first_value_of "zone_id" lines) as [z|e] eqn:Hz; cbn [negb]; [discriminate|].
  intros [= <-]. rewrite (first_value_of_raises _ _ _ Hz) in Hz.
  split; [simpl; auto|]. split; [exact Hz|].
  intros k0 [<-|[<-|[]]]; [exists k; exact Hk | exists n; exact Hn].
Qed.

Lemma first_unresolved_none (lines : list (list string)) (key : string) :
  first_unresolved lines = None -> In key required_keys ->
  exists v, first_value_of key lines = Ok v.
Proof.
  unfold first_unresolved, required_keys, resolves. cbn [find].
  destruct (first_value_of "api_key" lines) as [k|e] eqn:Hk; cbn [negb]; [|discriminate].
  destruct (first_value_of "zone_name" lines) as [n|e] eqn:Hn; cbn [negb]; [|discriminate].
  destruct (first_value_of "zone_id" lines) as [z|e] eqn:Hz; cbn [negb]; [|discriminate].
  intros _ [<-|[<-|[<-|[]]]]; eexists; eassumption.
Qed.

Lemma required_keys_order (a b : string) :
  In a required_keys -> In b required_keys ->
  a = b \/ In a (keys_before b) \/ In b (keys_before a).
Proof.
  intros [<-|[<-|[<-|[]]]] [<-|[<-|[<-|[]]]]; cbn; auto.
Qed.

(* ================================================================== *)
(** * Facts about processes and the workflow *)
(* ================================================================== *)

Lemma bind_return {A B} (m : M A) (k : A -> M B) (p p' : Proc) (a : A) :
  m p = (p', Return a) -> bind m k p = k a p'.
Proof. intros H. unfold bind. rewrite H. reflexivity. Qed.

Lemma bind_exit {A B} (m : M A) (k : A -> M B) (p p' : Proc) (c : Z) :
  m p = (p', SystemExit c) -> bind m k p = (p', SystemExit c).
Proof. intros H. unfold bind. rewrite H. reflexivity. Qed.

Lemma bind_uncaught {A B} (m : M A) (k : A -> M B) (p p' : Proc) (e : pyexn) :
  m p = (p', Uncaught e) -> bind m k p = (p', Uncaught e).
Proof. intros H. unfold bind. rewrite H. reflexivity. Qed.

Lemma reads_do_not_mutate (lib : PyLib) (k n z : string) :
  is_mutating (ip_request lib) = false
  /\ is_mutating (zone_request lib k n z) = false.
Proof. split; reflexivity. Qed.

Lemma patch_mutates (lib : PyLib) (k z comment : string) (rid ip : json) :
  is_mutating (patch_request lib k z rid comment ip) = true.
Proof. reflexivity. Qed.

Lemma py_ne_str (a b : string) :
  Json.py_ne (JStr a) (JStr b) = negb (String.eqb a b).
Proof. reflexivity. Qed.

Section WorkflowFacts.

Variable lib : PyLib.
Variable w : World.

(** The wrapper, by what [urlopen] answers. *)
Lemma http_request_run (url method : string) (hs : list (string * string))
    (body : list (string * json)) (params : list (string * string)) (p : Proc) :
  let req :=
    mkRequest match params with [] => url | _ => url ++ "?" ++ urlencode lib params end
      (PyStr.upper method) hs
      match body with [] => None | _ => Some (dumps lib (JObj body)) end in
  let called := (calls p ++ [mkCall req TIMEOUT])%list in
  __http_request lib w url method hs body params p =
    match urlopen w (calls p) req TIMEOUT with
    | Responded s h c => (mkProc (stdout p) called, Return (mkResponse s h c))
    | Failed cls lineno msg =>
        (mkProc (stdout p ++ [transport_report cls lineno msg])%list called,
         SystemExit 1%Z)
    end.
Proof.
  intros req called. unfold __http_request, bind, do_urlopen. fold req.
  destruct (urlopen w (calls p) req TIMEOUT); reflexivity.
Qed.

Lemma check_public_ip_run (p : Proc) :
  let called := (calls p ++ [mkCall (ip_request lib) TIMEOUT])%list in
  check_public_ip lib w p =
    match urlopen w (calls p) (ip_request lib) TIMEOUT with
    | Responded s h c =>
        if Z.eqb s 200 then
          match parsed_ip lib c with
          | Ok ip => (mkProc (stdout p) called, Return ip)
          | Raise e => (mkProc (stdout p) called, Uncaught e)
          end
        else
          (mkProc (stdout p ++ [("Non-200 response when checking public IP: "
                                 ++ repr_response lib (mkResponse s h c))%string])%list
             called, SystemExit 1%Z)
    | Failed cls lineno msg =>
        (mkProc (stdout p ++ [transport_report cls lineno msg])%list called,
         SystemExit 1%Z)
    end.
Proof.
  intros called. unfold check_public_ip. unfold bind at 1.
  rewrite http_request_run. fold (ip_request lib).
  change (PyStr.upper "GET") with "GET". fold (ip_request lib). fold called.
  destruct (urlopen w (calls p) (ip_request lib) TIMEOUT) as [s h c|cls ln msg];
    [|reflexivity].
  cbn [status content]. destruct (Z.eqb s 200); [|reflexivity].
  unfold bind, eval, ret. fold (parsed_ip lib c).
  destruct (parsed_ip lib c); reflexivity.
Qed.

Lemma check_zone_apex_run (api_key name zone_id : string) (p : Proc) :
  let req := zone_request lib api_key name zone_id in
  let called := (calls p ++ [mkCall req TIMEOUT])%list in
  check_zone_apex lib w api_key name zone_id p =
    match urlopen w (calls p) req TIMEOUT with
    | Responded s h c =>
        if Z.eqb s 200 then
          match parsed_record lib c with
          | Ok record => (mkProc (stdout p) called, Return record)
          | Raise e => (mkProc (stdout p) called, Uncaught e)
          end
        else
          (mkProc (stdout p ++ [("Got non-200 response: "
                                 ++ repr_response lib (mkResponse s h c))%string])%list
             called, SystemExit 1%Z)
    | Failed cls lineno msg =>
        (mkProc (stdout p ++ [transport_report cls lineno msg])%list called,
         SystemExit 1%Z)
    end.
Proof.
  intros req called. unfold check_zone_apex. cbv zeta. unfold bind at 1.
  rewrite http_request_run.
  change (PyStr.upper "GET") with "GET".
  change (mkRequest _ "GET" _ _) with req. fold called.
  destruct (urlopen w (calls p) req TIMEOUT) as [s h c|cls ln msg]; [|reflexivity].
  cbn [status content]. destruct (Z.eqb s 200); [|reflexivity].
  unfold parsed_record, bind, eval, ret.
  destruct (loads lib c) as [doc|e]; [|reflexivity]. cbn [res_bind].
  destruct (Json.getitem_str doc "result") as [result|e]; [|reflexivity]. cbn [res_bind].
  destruct (Json.getitem_int result 0) as [ans|e]; [|reflexivity]. cbn [res_bind].
  destruct (Json.getitem_str ans "content") as [r_ip|e]; [|reflexivity]. cbn [res_bind].
  destruct (Json.getitem_str ans "id") as [r_id|e]; reflexivity.
Qed.

Lemma update_zone_apex_run (api_key zone_id : string)
    (record_id old_ip new_ip : json) (p : Proc) :
  let req := patch_request lib api_key zone_id record_id
               (update_comment lib w old_ip) new_ip in
  let called := (calls p ++ [mkCall req TIMEOUT])%list in
  update_zone_apex lib w api_key zone_id record_id old_ip new_ip p =
    match urlopen w (calls p) req TIMEOUT with
    | Responded s h c =>
        if Z.eqb s 200 then
          (mkProc (stdout p ++ ["Record content and comment updated successfully!"])%list
             called, Return tt)
        else
          (mkProc (stdout p ++ [("Non-200 response while updating record: "
                                 ++ repr_response lib (mkResponse s h c))%string])%list
             called, SystemExit 1%Z)
    | Failed cls lineno msg =>
        (mkProc (stdout p ++ [transport_report cls lineno msg])%list called,
         SystemExit 1%Z)
    end.
Proof.
  intros req called. unfold update_zone_apex. cbv zeta. unfold bind at 1.
  rewrite http_request_run.
  change (PyStr.upper "PATCH") with "PATCH".
  change (mkRequest _ "PATCH" _ _) with req. fold called.
  destruct (urlopen w (calls p) req TIMEOUT) as [s h c|cls ln msg]; [|reflexivity].
  cbn [status content]. destruct (Z.eqb s 200); reflexivity.
Qed.

Lemma announce_run (api_key name zone_id : string) (p : Proc) :
  snd (announce api_key name zone_id p) = Return tt
  /\ calls (fst (announce api_key name zone_id p)) = calls p.
Proof. split; reflexivity. Qed.

(** Every exchange is recorded, whatever comes of it. *)
Lemma check_public_ip_calls (p : Proc) :
  calls (fst (check_public_ip lib w p))
  = (calls p ++ [mkCall (ip_request lib) TIMEOUT])%list.
Proof.
  rewrite check_public_ip_run.
  destruct (urlopen w (calls p) (ip_request lib) TIMEOUT) as [s h c|cls ln msg];
    [|reflexivity].
  destruct (Z.eqb s 200); [|reflexivity].
  destruct (parsed_ip lib c); reflexivity.
Qed.

Lemma check_zone_apex_calls (api_key name zone_id : string) (p : Proc) :
  calls (fst (check_zone_apex lib w api_key name zone_id p))
  = (calls p ++ [mkCall (zone_request lib api_key name zone_id) TIMEOUT])%list.
Proof.
  rewrite check_zone_apex_run.
  destruct (urlopen w (calls p) (zone_request lib api_key name zone_id) TIMEOUT)
    as [s h c|cls ln msg]; [|reflexivity].
  destruct (Z.eqb s 200); [|reflexivity].
  destruct (parsed_record lib c); reflexivity.
Qed.

Lemma update_zone_apex_calls (api_key zone_id : string)
    (record_id old_ip new_ip : json) (p : Proc) :
  calls (fst (update_zone_apex lib w api_key zone_id record_id old_ip new_ip p))
  = (calls p ++ [mkCall (patch_request lib api_key zone_id record_id
                           (update_comment lib w old_ip) new_ip) TIMEOUT])%list.
Proof.
  rewrite update_zone_apex_run.
  destruct (urlopen w (calls p) _ TIMEOUT) as [s h c|cls ln msg]; [|reflexivity].
  destruct (Z.eqb s 200); reflexivity.
Qed.

(** The main block once the credentials are there. *)
Lemma run_resolved (p1 : Proc) (k n z : string) :
  _read_envs w (mkProc [] []) = (p1, Return (k, n, z)) ->
  run lib w = reconcile lib w k n z (fst (announce k n z p1))
  /\ calls (fst (announce k n z p1)) = [].
Proof.
  intros H0. split.
  - unfold run, main. unfold bind at 1. rewrite H0. reflexivity.
  - pose proof (read_envs_calls w (mkProc [] [])) as Hc. rewrite H0 in Hc.
    exact Hc.
Qed.

(** The main block when the credentials are not there. *)
Lemma run_unresolved :
  (forall t, snd (_read_envs w (mkProc [] [])) <> Return t) ->
  calls (fst (run lib w)) = []
  /\ exit_status (snd (run lib w)) = exit_status (snd (_read_envs w (mkProc [] []))).
Proof.
  intros Hno. pose proof (read_envs_calls w (mkProc [] [])) as Hc.
  assert (Hrun : run lib w =
                 (fst (_read_envs w (mkProc [] [])),
                  match snd (_read_envs w (mkProc [] [])) with
                  | Return _ => SystemExit 0%Z
                  | SystemExit c => SystemExit c
                  | Uncaught e => Uncaught e
                  end)).
  { unfold run, main. unfold bind at 1.
    destruct (_read_envs w (mkProc [] [])) as [p1 [t|c|e]]; [|reflexivity..].
    exfalso. apply (Hno t). reflexivity. }
  rewrite Hrun. cbn [fst snd]. split; [exact Hc|].
  destruct (snd (_read_envs w (mkProc [] []))) as [t|c|e] eqn:Ho; [|reflexivity..].
  exfalso. apply (Hno t). reflexivity.
Qed.

(** What a returned address or record says about the exchange. *)
Lemma check_public_ip_returns (p p2 : Proc) (public_ip : json) :
  check_public_ip lib w p = (p2, Return public_ip) ->
  p2 = mkProc (stdout p) (calls p ++ [mkCall (ip_request lib) TIMEOUT])%list
  /\ exists h c,
       urlopen w (calls p) (ip_request lib) TIMEOUT = Responded 200 h c
       /\ parsed_ip lib c = Ok public_ip.
Proof.
  rewrite check_public_ip_run.
  destruct (urlopen w (calls p) (ip_request lib) TIMEOUT) as [s h c|cls ln msg];
    [|discriminate].
  destruct (Z.eqb_spec s 200) as [->|_]; [|discriminate].
  destruct (parsed_ip lib c) as [ip|e] eqn:Hip; [|discriminate].
  intros [= <- <-]. split; [reflexivity|]. exists h, c. split; [reflexivity|exact Hip].
Qed.

Lemma check_zone_apex_returns (k n z : string) (p p3 : Proc) (record : json * json) :
  check_zone_apex lib w k n z p = (p3, Return record) ->
  p3 = mkProc (stdout p) (calls p ++ [mkCall (zone_request lib k n z) TIMEOUT])%list
  /\ exists h c,
       urlopen w (calls p) (zone_request lib k n z) TIMEOUT = Responded 200 h c
       /\ parsed_record lib c = Ok record.
Proof.
  rewrite check_zone_apex_run.
  destruct (urlopen w (calls p) (zone_request lib k n z) TIMEOUT) as [s h c|cls ln msg];
    [|discriminate].
  destruct (Z.eqb_spec s 200) as [->|_]; [|discriminate].
  destruct (parsed_record lib c) as [r|e] eqn:Hr; [|discriminate].
  intros [= <- <-]. split; [reflexivity|]. exists h, c. split; [reflexivity|exact Hr].
Qed.

(** The compare-and-update block, once both addresses are known. *)
Lemma reconcile_resolved (k n z : string) (p p2 p3 : Proc)
    (public_ip existing_ip record_id : json) :
  check_public_ip lib w p = (p2, Return public_ip) ->
  check_zone_apex lib w k n z p2 = (p3, Return (existing_ip, record_id)) ->
  reconcile lib w k n z p =
    if Json.py_ne public_ip existing_ip then
      let p4 := mkProc (stdout p3 ++
                        [("IPs do not match (apparent=" ++ py_str lib public_ip
                          ++ " | recorded=" ++ py_str lib existing_ip ++ ")")%string])%list
                  (calls p3) in
      match update_zone_apex lib w k z record_id existing_ip public_ip p4 with
      | (p5, Return _) => (p5, SystemExit 0%Z)
      | (p5, SystemExit c) => (p5, SystemExit c)
      | (p5, Uncaught e) => (p5, Uncaught e)
      end
    else
      (mkProc (stdout p3 ++
               [("IPs are consistent (apparent=" ++ py_str lib public_ip
                 ++ " | recorded=" ++ py_str lib existing_ip ++ ")")%string])%list
         (calls p3), SystemExit 0%Z).
Proof.
  intros H1 H2. unfold reconcile. unfold bind at 1. rewrite H1.
  unfold bind at 1. rewrite H2.
  destruct (Json.py_ne public_ip existing_ip); [|reflexivity].
  unfold bind at 1. cbn [print]. unfold bind at 1.
  destruct (update_zone_apex lib w k z record_id existing_ip public_ip _)
    as [p5 [[]|c|e]]; reflexivity.
Qed.

Lemma check_public_ip_not_200 (p : Proc) :
  not_200 (urlopen w (calls p) (ip_request lib) TIMEOUT) ->
  exists out,
    check_public_ip lib w p
    = (mkProc out (calls p ++ [mkCall (ip_request lib) TIMEOUT])%list, SystemExit 1%Z).
Proof.
  intros Hno. rewrite check_public_ip_run.
  destruct (urlopen w (calls p) (ip_request lib) TIMEOUT) as [s h c|cls ln msg].
  - cbn in Hno. apply Z.eqb_neq in Hno. rewrite Hno. eexists. reflexivity.
  - eexists. reflexivity.
Qed.

Lemma check_zone_apex_not_200 (k n z : string) (p : Proc) :
  not_200 (urlopen w (calls p) (zone_request lib k n z) TIMEOUT) ->
  exists out,
    check_zone_apex lib w k n z p
    = (mkProc out (calls p ++ [mkCall (zone_request lib k n z) TIMEOUT])%list,
       SystemExit 1%Z).
Proof.
  intros Hno. rewrite check_zone_apex_run.
  destruct (urlopen w (calls p) (zone_request lib k n z) TIMEOUT) as [s h c|cls ln msg].
  - cbn in Hno. apply Z.eqb_neq in Hno. rewrite Hno. eexists. reflexivity.
  - eexists. reflexivity.
Qed.

Lemma update_zone_apex_not_200 (k z : string) (rid old_ip new_ip : json) (p : Proc) :
  let req := patch_request lib k z rid (update_comment lib w old_ip) new_ip in
  not_200 (urlopen w (calls p) req TIMEOUT) ->
  exists out,
    update_zone_apex lib w k z rid old_ip new_ip p
    = (mkProc out (calls p ++ [mkCall req TIMEOUT])%list, SystemExit 1%Z).
Proof.
  intros req Hno. rewrite update_zone_apex_run. fold req.
  destruct (urlopen w (calls p) req TIMEOUT) as [s h c|cls ln msg].
  - cbn in Hno. apply Z.eqb_neq in Hno. rewrite Hno. eexists. reflexivity.
  - eexists. reflexivity.
Qed.

(** Every call of the compare-and-update block has the fixed timeout. *)
Lemma reconcile_timeouts (k n z : string) (p : Proc) :
  Forall (fun c => call_timeout c = TIMEOUT) (calls p) ->
  Forall (fun c => call_timeout c = TIMEOUT) (calls (fst (reconcile lib w k n z p))).
Proof.
  intros Hp.
  assert (Hsnoc : forall l r, Forall (fun c => call_timeout c = TIMEOUT) l ->
                   Forall (fun c => call_timeout c = TIMEOUT) (l ++ [mkCall r TIMEOUT])%list).
  { intros l r Hl. apply Forall_app. split; [exact Hl|]. repeat constructor. }
  pose proof (check_public_ip_calls p) as Hc1.
  unfold reconcile.
  destruct (check_public_ip lib w p) as [p2 [public_ip|c|e]] eqn:H1; cbn [fst] in Hc1.
  2:{ rewrite (bind_exit _ _ _ _ _ H1). cbn [fst]. rewrite Hc1. auto. }
  2:{ rewrite (bind_uncaught _ _ _ _ _ H1). cbn [fst]. rewrite Hc1. auto. }
  pose proof (check_zone_apex_calls k n z p2) as Hc2. rewrite Hc1 in Hc2.
  destruct (check_zone_apex lib w k n z p2)
    as [p3 [[existing_ip record_id]|c|e]] eqn:H2; cbn [fst] in Hc2.
  2:{ rewrite (bind_return _ _ _ _ _ H1), (bind_exit _ _ _ _ _ H2).
      cbn [fst]. rewrite Hc2. auto. }
  2:{ rewrite (bind_return _ _ _ _ _ H1), (bind_uncaught _ _ _ _ _ H2).
      cbn [fst]. rewrite Hc2. auto. }
  fold (reconcile lib w k n z p).
  rewrite (reconcile_resolved k n z p p2 p3 _ _ _ H1 H2).
  destruct (Json.py_ne public_ip existing_ip); [|cbn [fst calls]; rewrite Hc2; auto].
  cbv zeta.
  match goal with
  | |- context [update_zone_apex lib w k z record_id existing_ip public_ip ?q] =>
      pose proof (update_zone_apex_calls k z record_id existing_ip public_ip q)
        as Hc3;
      destruct (update_zone_apex lib w k z record_id existing_ip public_ip q)
        as [p5 [[]|c|e]]
  end; cbn [fst calls] in Hc3 |- *; rewrite Hc3, Hc2; auto.
Qed.

Lemma run_timeouts :
  Forall (fun c => call_timeout c = TIMEOUT) (calls (fst (run lib w))).
Proof.
  destruct (_read_envs w (mkProc [] [])) as [p1 [[[k n] z]|c|e]] eqn:H0.
  2,3: rewrite (proj1 (run_unresolved ltac:(rewrite H0; discriminate)));
       constructor.
  destruct (run_resolved p1 k n z H0) as [Hrun Hfresh].
  rewrite Hrun. apply reconcile_timeouts. rewrite Hfresh. constructor.
Qed.

End WorkflowFacts.

(* ================================================================== *)
(** * The credential resolver *)
(* ================================================================== *)

(** C5, as the code has it.  When the [.env] file exists, it alone
    decides the credentials.  Whether the file reads or not, the result
    of [_read_envs] does not depend on the process environment.  When it
    reads: if the three keys resolve in the file, the three values looked
    up in the file are returned, and nothing else is ever returned; and
    if a required key is absent from the file, resolution exits with
    status 1, whatever the environment holds, and prints as missing the
    first of [api_key], [zone_name], [zone_id] that does not resolve in
    the file, which is the absent key when the keys looked up before it
    resolve. *)
Theorem file_decides_credentials (w : World) (p : Proc) :
  (dotenv w <> NoEntry -> dotenv w <> NotAFile ->
   forall w', dotenv w' = dotenv w -> dotenv_path w' = dotenv_path w ->
     _read_envs w' p = _read_envs w p)
  /\ (forall readlines,
        dotenv w = RegularFile readlines ->
        let lines := format_lines readlines in
        let found :=
          (stdout p ++ [(".env file found at " ++ dotenv_path w)%string])%list in
        (forall k n z,
           first_value_of "api_key" lines = Ok k ->
           first_value_of "zone_name" lines = Ok n ->
           first_value_of "zone_id" lines = Ok z ->
           _read_envs w p = (mkProc found (calls p), Return (k, n, z)))
        /\ (forall p' k n z,
              _read_envs w p = (p', Return (k, n, z)) ->
              first_value_of "api_key" lines = Ok k
              /\ first_value_of "zone_name" lines = Ok n
              /\ first_value_of "zone_id" lines = Ok z)
        /\ (forall key,
              In key required_keys -> key_absent key readlines ->
              exists missing,
                first_unresolved lines = Some missing
                /\ In missing required_keys
                /\ first_value_of missing lines = Raise IndexError
                /\ (forall k, In k (keys_before missing) ->
                      exists v, first_value_of k lines = Ok v)
                /\ ((forall k, In k (keys_before key) ->
                       exists v, first_value_of k lines = Ok v) ->
                    missing = key)
                /\ _read_envs w p =
                     (mkProc (found ++ [missing_from_file missing])%list (calls p),
                      SystemExit 1%Z))).
Proof.
  split.
  - intros Hno1 Hno2 w' Hd Hp.
    destruct (dotenv w) as [| |readlines|cls msg] eqn:Hw; [contradiction..| |].
    + rewrite (read_envs_file w readlines p Hw), (read_envs_file w' readlines p Hd).
      rewrite Hp. reflexivity.
    + rewrite (read_envs_file_unreadable w p cls msg Hw),
        (read_envs_file_unreadable w' p cls msg Hd).
      rewrite Hp. reflexivity.
  - intros readlines Hfile lines found. split; [|split].
    + intros k n z Hk Hn Hz. rewrite (read_envs_file w readlines p Hfile).
      fold lines. rewrite Hk, Hn, Hz. reflexivity.
    + intros p' k n z. rewrite (read_envs_file w readlines p Hfile). fold lines.
      destruct (first_value_of "api_key" lines); [|discriminate].
      destruct (first_value_of "zone_name" lines); [|discriminate].
      destruct (first_value_of "zone_id" lines); [|discriminate].
      intros [= _ -> -> ->]. repeat split.
    + intros key Hkey Habs.
      pose proof (first_value_of_absent key readlines Habs) as Hmiss. fold lines in Hmiss.
      pose proof (read_envs_first_unresolved w readlines p Hfile) as Hrun.
      cbv zeta in Hrun. fold lines in Hrun. fold found in Hrun.
      destruct (first_unresolved lines) as [missing|] eqn:Hfirst.
      * destruct (first_unresolved_spec lines missing Hfirst) as (Hin & Hraise & Hbefore).
        exists missing. split; [reflexivity|]. split; [exact Hin|].
        split; [exact Hraise|]. split; [exact Hbefore|]. split; [|exact Hrun].
        intros Hearlier.
        destruct (required_keys_order missing key Hin Hkey) as [E | [Hlt | Hgt]];
          [exact E | exfalso..].
        -- destruct (Hearlier missing Hlt) as [v Hv]. congruence.
        -- destruct (Hbefore key Hgt) as [v Hv]. congruence.
      * exfalso. destruct (first_unresolved_none lines key Hfirst Hkey) as [v Hv].
        congruence.
Qed.

Lemma file_decides_credentials_witness :
  _read_envs Demo.scenario1 Demo.fresh
  = (mkProc [".env file found at /opt/cfddns/.env"] [], Return ("K", "example.com", "Z1"))
  /\ environ Demo.partial_file_world "zone_id" = Some "Z1"
  /\ _read_envs Demo.partial_file_world Demo.fresh
     = (mkProc [".env file found at /opt/cfddns/.env";
                "Key 'zone_id' missing from .env file!"] [], SystemExit 1%Z).
Proof.
  split; [|split; [reflexivity|]].
  - destruct (proj2 (file_decides_credentials Demo.scenario1 Demo.fresh)
                Demo.env_file eq_refl) as (Hgiven & _ & _).
    exact (Hgiven "K" "example.com" "Z1" eq_refl eq_refl eq_refl).
  - destruct (proj2 (file_decides_credentials Demo.partial_file_world Demo.fresh)
                ["api_key=K" ++ PyStr.newline; "zone_name=example.com" ++ PyStr.newline]
                eq_refl) as (_ & _ & Hmissing).
    destruct (Hmissing "zone_id") as (missing & Hfirst & _ & _ & _ & _ & Hrun).
    + simpl. auto.
    + intros l Hl. vm_compute in Hl. destruct Hl as [<-|[<-|[]]]; discriminate.
    + vm_compute in Hfirst. injection Hfirst as <-. exact Hrun.
Defined.

(** C5 as stated fails: in a file that has no [zone_id] line, gives
    [api_key] a value on one line and has it alone on another, the only
    required key absent is [zone_id], and the key printed as missing is
    [api_key]; [zone_id] is not reported. *)
Lemma absent_key_not_always_the_one_reported :
  dotenv Demo.bare_api_key_no_zone_id_world
  = RegularFile ["api_key=K" ++ PyStr.newline; "api_key" ++ PyStr.newline;
                 "zone_name=example.com" ++ PyStr.newline]
  /\ key_absent "zone_id" ["api_key=K" ++ PyStr.newline; "api_key" ++ PyStr.newline;
                           "zone_name=example.com" ++ PyStr.newline]
  /\ ~ key_absent "api_key" ["api_key=K" ++ PyStr.newline; "api_key" ++ PyStr.newline;
                             "zone_name=example.com" ++ PyStr.newline]
  /\ ~ key_absent "zone_name" ["api_key=K" ++ PyStr.newline; "api_key" ++ PyStr.newline;
                               "zone_name=example.com" ++ PyStr.newline]
  /\ _read_envs Demo.bare_api_key_no_zone_id_world Demo.fresh
     = (mkProc [".env file found at /opt/cfddns/.env";
                "Key 'api_key' missing from .env file!"] [], SystemExit 1%Z)
  /\ ~ In (missing_from_file "zone_id")
          (stdout (fst (_read_envs Demo.bare_api_key_no_zone_id_world Demo.fresh))).
Proof.
  split; [reflexivity|]. split; [|split; [|split; [|split; [reflexivity|]]]].
  - intros l Hl. vm_compute in Hl. destruct Hl as [<-|[<-|[<-|[]]]]; discriminate.
  - intros Habs. apply (Habs ["api_key"; "K"]); [vm_compute; auto | reflexivity].
  - intros Habs. apply (Habs ["zone_name"; "example.com"]); [vm_compute; auto | reflexivity].
  - vm_compute. intros [H|[H|[]]]; discriminate.
Qed.

(** C9, as the code has it.  If the file has a line that is, once
    stripped, a required key and nothing else, resolution exits with
    status 1, whatever the other lines are.  The key it prints as missing
    is the first of [api_key], [zone_name], [zone_id] that does not
    resolve: it is the bare key when the keys looked up before it resolve,
    which is always the case for [api_key]. *)
Theorem bare_key_line_is_fatal (w : World) (readlines : list string) (p : Proc)
    (key l : string) :
  dotenv w = RegularFile readlines ->
  In key required_keys ->
  In l readlines ->
  PyStr.strip l = key ->
  let lines := format_lines readlines in
  let found := (stdout p ++ [(".env file found at " ++ dotenv_path w)%string])%list in
  snd (_read_envs w p) = SystemExit 1%Z
  /\ ((forall k, In k (keys_before key) -> exists v, first_value_of k lines = Ok v) ->
      fst (_read_envs w p) = mkProc (found ++ [missing_from_file key])%list (calls p))
  /\ (exists missing,
        first_unresolved lines = Some missing
        /\ first_value_of missing lines = Raise IndexError
        /\ (forall k, In k (keys_before missing) ->
              exists v, first_value_of k lines = Ok v)
        /\ fst (_read_envs w p)
           = mkProc (found ++ [missing_from_file missing])%list (calls p)).
Proof.
  intros Hfile Hkey Hin Hl lines found.
  assert (Hbare : first_value_of key lines = Raise IndexError).
  { apply (first_value_of_bare key readlines l Hin Hl).
    simpl in Hkey. destruct Hkey as [<-|[<-|[<-|[]]]]; reflexivity. }
  apply and_assoc. split.
  2:{ pose proof (read_envs_first_unresolved w readlines p Hfile) as Hrun.
      cbv zeta in Hrun. fold lines in Hrun. fold found in Hrun.
      destruct (first_unresolved lines) as [missing|] eqn:Hfirst.
      - destruct (first_unresolved_spec lines missing Hfirst) as (_ & Hraise & Hbefore).
        exists missing. rewrite Hrun. repeat split; assumption.
      - exfalso. destruct (first_unresolved_none lines key Hfirst Hkey) as [v Hv].
        congruence. }
  rewrite (read_envs_file w readlines p Hfile). fold lines. fold found.
  simpl in Hkey. destruct Hkey as [<-|[<-|[<-|[]]]].
  - rewrite Hbare. split; [reflexivity|]. intros _. reflexivity.
  - destruct (first_value_of "api_key" lines) as [k|e] eqn:Hk.
    + rewrite Hbare. split; [reflexivity|]. intros _. reflexivity.
    + split; [reflexivity|]. intros Hbefore.
      destruct (Hbefore "api_key") as [v Hv]; [simpl; auto|]. congruence.
  - destruct (first_value_of "api_key" lines) as [k|e] eqn:Hk.
    + destruct (first_value_of "zone_name" lines) as [n|e] eqn:Hn.
      * rewrite Hbare. split; [reflexivity|]. intros _. reflexivity.
      * split; [reflexivity|]. intros Hbefore.
        destruct (Hbefore "zone_name") as [v Hv]; [simpl; auto|]. congruence.
    + split; [reflexivity|]. intros Hbefore.
      destruct (Hbefore "api_key") as [v Hv]; [simpl; auto|]. congruence.
Qed.

Lemma bare_key_line_is_fatal_witness :
  _read_envs Demo.bare_api_key_world Demo.fresh
  = (mkProc [".env file found at /opt/cfddns/.env";
             "Key 'api_key' missing from .env file!"] [], SystemExit 1%Z).
Proof.
  pose proof (bare_key_line_is_fatal Demo.bare_api_key_world
                ["api_key=K" ++ PyStr.newline; "api_key" ++ PyStr.newline;
                 "api_key=K2" ++ PyStr.newline; "zone_name=example.com" ++ PyStr.newline;
                 "zone_id=Z1" ++ PyStr.newline]
                Demo.fresh "api_key" ("api_key" ++ PyStr.newline)
                eq_refl (or_introl eq_refl) (or_intror (or_introl eq_refl)) eq_refl)
    as [Hexit [Hout _]].
  specialize (Hout (fun k (H : In k (keys_before "api_key")) => match H with end)).
  destruct (_read_envs Demo.bare_api_key_world Demo.fresh) as [q o].
  simpl in Hexit, Hout. rewrite Hexit, Hout. reflexivity.
Defined.

(** C9 as stated fails: with a bare [zone_id] line in a file that has no
    [api_key] line, the key reported missing is [api_key]; [zone_id] is
    not reported. *)
Lemma bare_key_not_always_the_one_reported :
  In ("zone_id" ++ PyStr.newline)
     ["zone_name=example.com" ++ PyStr.newline; "zone_id" ++ PyStr.newline]
  /\ PyStr.strip ("zone_id" ++ PyStr.newline) = "zone_id"
  /\ stdout (fst (_read_envs Demo.bare_zone_id_world Demo.fresh))
     = [".env file found at /opt/cfddns/.env"; "Key 'api_key' missing from .env file!"]
  /\ ~ In (missing_from_file "zone_id")
          (stdout (fst (_read_envs Demo.bare_zone_id_world Demo.fresh))).
Proof.
  repeat split; try reflexivity.
  - right. left. reflexivity.
  - vm_compute. intros [H|[H|[]]]; discriminate.
Qed.

(** C6, as the code has it.  A line is stripped of the white space at its
    two ends and then split at its first [=] only: what is left of it is
    the key, what is right of it, further [=] included, is the value.  For
    every value [v] that does not end in white space (whether it contains
    [=] or not), the line [api_key=v] resolves [api_key] to exactly [v]:
    in the lookup, when no earlier line has that key and the later lines
    raise nothing, and so in what [_read_envs] returns. *)
Theorem value_kept_after_first_equals (v eol : string) (pre post : list string)
    (vs : list string) :
  eol = EmptyString \/ eol = PyStr.newline ->
  PyStr.rstrip v = v ->
  values_of "api_key" (format_lines pre) = Ok [] ->
  values_of "api_key" (format_lines post) = Ok vs ->
  let file := (pre ++ ("api_key=" ++ v ++ eol)%string :: post)%list in
  (forall k, PyStr.partition "=" k = None ->
     PyStr.split1 "=" (k ++ "=" ++ v) = [k; v])
  /\ format_lines ["api_key=" ++ v ++ eol] = [["api_key"; v]]
  /\ first_value_of "api_key" (format_lines file) = Ok v
  /\ (forall w p p' k n z,
        dotenv w = RegularFile file ->
        _read_envs w p = (p', Return (k, n, z)) -> k = v).
Proof.
  intros Heol Hv Hpre Hpost file.
  assert (Hline : format_lines ["api_key=" ++ v ++ eol] = [["api_key"; v]]).
  { unfold format_lines. cbn [map]. rewrite (strip_api_key_line v eol Heol Hv).
    reflexivity. }
  assert (Hfirst : first_value_of "api_key" (format_lines file) = Ok v).
  { unfold first_value_of, file, format_lines. rewrite map_app. cbn [map].
    fold (format_lines pre). fold (format_lines post).
    rewrite (values_of_app "api_key" (format_lines pre) _ (v :: vs) Hpre); [reflexivity|].
    rewrite values_of_cons. rewrite (strip_api_key_line v eol Heol Hv).
    change (PyStr.split1 "=" ("api_key=" ++ v)) with ["api_key"; v].
    cbn [nth_error]. rewrite String.eqb_refl, Hpost. reflexivity. }
  split; [|split; [exact Hline|split; [exact Hfirst|]]].
  - intros k Hk. apply (split1_first_separator "=" k v Hk).
  - intros w p p' k n z Hfile. rewrite (read_envs_file w file p Hfile).
    rewrite Hfirst.
    destruct (first_value_of "zone_name" (format_lines file)); [|discriminate].
    destruct (first_value_of "zone_id" (format_lines file)); [|discriminate].
    intros [= _ -> _ _]. reflexivity.
Qed.

Lemma value_kept_after_first_equals_witness :
  format_lines ["api_key=abc=def" ++ PyStr.newline] = [["api_key"; "abc=def"]]
  /\ first_value_of "api_key"
       (format_lines ["zone_id=Z1" ++ PyStr.newline; "api_key=abc=def" ++ PyStr.newline;
                      "zone_name=example.com"])
     = Ok "abc=def".
Proof.
  destruct (value_kept_after_first_equals "abc=def" PyStr.newline
              ["zone_id=Z1" ++ PyStr.newline] ["zone_name=example.com"] []
              (or_intror eq_refl) eq_refl eq_refl eq_refl)
    as (_ & Hline & Hfirst & _).
  split; [exact Hline | exact Hfirst].
Defined.

(** C6 as stated fails: a value that contains [=] and ends in a space
    loses the space. *)
Lemma trailing_space_of_value_is_lost :
  PyStr.contains "=" "abc=def " = true
  /\ first_value_of "api_key" (format_lines ["api_key=" ++ "abc=def " ++ PyStr.newline])
     = Ok "abc=def"
  /\ first_value_of "api_key" (format_lines ["api_key=" ++ "abc=def " ++ PyStr.newline])
     <> Ok "abc=def ".
Proof.
  repeat split; try reflexivity. vm_compute. discriminate.
Qed.

(* ================================================================== *)
(** * The masked view of the credentials *)
(* ================================================================== *)

(** C8, as the code has it.  The lines that show [api_key] and [zone_id]
    show their first three and last three characters only, and the line
    that shows the zone name shows it whole: two sets of credentials with
    the same zone name, whose API keys agree on the first three and last
    three characters and whose zone identifiers do too, print the same
    lines. *)
Theorem announce_shows_masked_secrets (k1 k2 name z1 z2 : string) (p : Proc) :
  PyStr.slice_to 3 k1 = PyStr.slice_to 3 k2 ->
  PyStr.slice_last 3 k1 = PyStr.slice_last 3 k2 ->
  PyStr.slice_to 3 z1 = PyStr.slice_to 3 z2 ->
  PyStr.slice_last 3 z1 = PyStr.slice_last 3 z2 ->
  announce k1 name z1 p = announce k2 name z2 p
  /\ stdout (fst (announce k1 name z1 p))
     = (stdout p ++
        ["Found environment variables:";
         "API key: " ++ PyStr.slice_to 3 k1 ++ "..." ++ PyStr.slice_last 3 k1;
         "Zone   : " ++ name;
         "Zone ID: " ++ PyStr.slice_to 3 z1 ++ "..." ++ PyStr.slice_last 3 z1;
         "====================" ++ PyStr.newline]%string)%list.
Proof.
  intros Hk1 Hk2 Hz1 Hz2. split.
  - unfold announce. rewrite Hk1, Hk2, Hz1, Hz2. reflexivity.
  - unfold announce, bind, print. cbn [fst stdout calls].
    rewrite <- !app_assoc. reflexivity.
Qed.

Lemma announce_shows_masked_secrets_witness :
  announce "sk-live-0123456789" "example.com" "0a1b2c3d4e5f" Demo.fresh
  = announce "sk-test-9876543789" "example.com" "0a1zzzzzze5f" Demo.fresh.
Proof.
  apply (announce_shows_masked_secrets "sk-live-0123456789" "sk-test-9876543789"
           "example.com" "0a1b2c3d4e5f" "0a1zzzzzze5f" Demo.fresh
           eq_refl eq_refl eq_refl eq_refl).
Defined.

(** C8 as stated fails: two zone names that agree on their first three
    and last three characters are printed differently, each in full. *)
Lemma zone_name_is_printed_whole :
  PyStr.slice_to 3 "example.com" = PyStr.slice_to 3 "exam.com"
  /\ PyStr.slice_last 3 "example.com" = PyStr.slice_last 3 "exam.com"
  /\ stdout (fst (announce "K" "example.com" "Z1" Demo.fresh))
     <> stdout (fst (announce "K" "exam.com" "Z1" Demo.fresh))
  /\ In "Zone   : example.com" (stdout (fst (announce "K" "example.com" "Z1" Demo.fresh))).
Proof.
  repeat split; try reflexivity.
  - vm_compute. discriminate.
  - vm_compute. auto.
Qed.

(** C10. A secret of at most six characters is shown whole by its masked
    view, the first three characters, an ellipsis and the last three, as
    the lines for the API key and for the zone identifier print it: each
    of its characters is among the first three or among the last three, at
    the place it has in the secret, and the secret is the first three
    followed by the end of the last three. *)
Theorem short_secret_is_shown_whole (s other name : string) (p : Proc) :
  String.length s <= 6 ->
  let shown := PyStr.slice_to 3 s ++ "..." ++ PyStr.slice_last 3 s in
  In ("API key: " ++ shown) (stdout (fst (announce s name other p)))
  /\ In ("Zone ID: " ++ shown) (stdout (fst (announce other name s p)))
  /\ (forall i c,
        String.get i s = Some c ->
        String.get i (PyStr.slice_to 3 s) = Some c
        \/ String.get (i - (String.length s - 3)) (PyStr.slice_last 3 s) = Some c)
  /\ s = PyStr.slice_to 3 s
          ++ PyStr.slice_last (String.length s - 3) (PyStr.slice_last 3 s).
Proof.
  intros Hlen shown. split; [|split; [|split]].
  - unfold announce, bind, print. cbn [fst stdout].
    rewrite !in_app_iff. left. left. left. right. left. reflexivity.
  - unfold announce, bind, print. cbn [fst stdout].
    rewrite !in_app_iff. left. right. left. reflexivity.
  - intros i c Hget. unfold PyStr.slice_to, PyStr.slice_last.
    destruct s as [|a [|b [|d [|e [|f [|g [|h s]]]]]]]; cbn in Hlen; try lia;
      destruct i as [|[|[|[|[|[|i]]]]]]; cbn in Hget |- *;
      try discriminate; auto.
  - unfold PyStr.slice_to, PyStr.slice_last.
    destruct s as [|a [|b [|d [|e [|f [|g [|h s]]]]]]]; cbn in Hlen; try lia;
      reflexivity.
Qed.

Lemma short_secret_is_shown_whole_witness :
  In "API key: s3c...r3t" (stdout (fst (announce "s3cr3t" "example.com" "Z1" Demo.fresh)))
  /\ "s3cr3t" = PyStr.slice_to 3 "s3cr3t"
                ++ PyStr.slice_last (String.length "s3cr3t" - 3)
                     (PyStr.slice_last 3 "s3cr3t").
Proof.
  destruct (short_secret_is_shown_whole "s3cr3t" "Z1" "example.com" Demo.fresh)
    as (Hline & _ & _ & Hwhole).
  - cbn. lia.
  - split; [exact Hline | exact Hwhole].
Defined.

(* ================================================================== *)
(** * The reconcile-and-update workflow *)
(* ================================================================== *)

(** C1. In a run where the public address fetched and the recorded
    address compare equal (for two strings: they are the same string), no
    mutating call is made and the process exits with status 0.  And in
    every run, whatever the file, the environment and the network do, a
    mutating call is made only if both addresses were obtained and they
    differ. *)
Theorem zone_mutated_only_when_ips_differ (lib : PyLib) (w : World) :
  (forall p1 k n z p2 public_ip p3 existing_ip record_id,
     _read_envs w (mkProc [] []) = (p1, Return (k, n, z)) ->
     check_public_ip lib w (fst (announce k n z p1)) = (p2, Return public_ip) ->
     check_zone_apex lib w k n z p2 = (p3, Return (existing_ip, record_id)) ->
     Json.py_ne public_ip existing_ip = false ->
     mutating_calls (fst (run lib w)) = []
     /\ calls (fst (run lib w))
        = [mkCall (ip_request lib) TIMEOUT; mkCall (zone_request lib k n z) TIMEOUT]
     /\ snd (run lib w) = SystemExit 0%Z
     /\ exit_status (snd (run lib w)) = 0%Z)
  /\ (mutating_calls (fst (run lib w)) <> [] ->
      exists p1 k n z p2 public_ip p3 existing_ip record_id,
        _read_envs w (mkProc [] []) = (p1, Return (k, n, z))
        /\ check_public_ip lib w (fst (announce k n z p1)) = (p2, Return public_ip)
        /\ check_zone_apex lib w k n z p2 = (p3, Return (existing_ip, record_id))
        /\ Json.py_ne public_ip existing_ip = true).
Proof.
  split.
  - intros p1 k n z p2 public_ip p3 existing_ip record_id H0 H1 H2 Hcmp.
    destruct (run_resolved lib w p1 k n z H0) as [Hrun Hfresh].
    rewrite Hrun, (reconcile_resolved lib w k n z _ p2 p3 _ _ _ H1 H2), Hcmp.
    destruct (check_public_ip_returns lib w _ _ _ H1) as [-> _].
    destruct (check_zone_apex_returns lib w _ _ _ _ _ _ H2) as [-> _].
    unfold mutating_calls. cbn [fst snd calls]. rewrite Hfresh.
    repeat split.
  - intros Hmut.
    destruct (_read_envs w (mkProc [] [])) as [p1 [[[k n] z]|c|e]] eqn:H0.
    2,3: exfalso; apply Hmut; unfold mutating_calls;
         rewrite (proj1 (run_unresolved lib w ltac:(rewrite H0; discriminate)));
         reflexivity.
    destruct (run_resolved lib w p1 k n z H0) as [Hrun Hfresh].
    pose proof (check_public_ip_calls lib w (fst (announce k n z p1))) as Hc1.
    rewrite Hfresh in Hc1.
    destruct (check_public_ip lib w (fst (announce k n z p1)))
      as [p2 [public_ip|c|e]] eqn:H1; cbn [fst] in Hc1.
    2:{ exfalso. apply Hmut. rewrite Hrun. unfold reconcile, mutating_calls.
        rewrite (bind_exit _ _ _ _ _ H1). cbn [fst]. rewrite Hc1. reflexivity. }
    2:{ exfalso. apply Hmut. rewrite Hrun. unfold reconcile, mutating_calls.
        rewrite (bind_uncaught _ _ _ _ _ H1). cbn [fst]. rewrite Hc1. reflexivity. }
    pose proof (check_zone_apex_calls lib w k n z p2) as Hc2. rewrite Hc1 in Hc2.
    destruct (check_zone_apex lib w k n z p2)
      as [p3 [[existing_ip record_id]|c|e]] eqn:H2; cbn [fst] in Hc2.
    2:{ exfalso. apply Hmut. rewrite Hrun. unfold reconcile, mutating_calls.
        rewrite (bind_return _ _ _ _ _ H1), (bind_exit _ _ _ _ _ H2).
        cbn [fst]. rewrite Hc2. reflexivity. }
    2:{ exfalso. apply Hmut. rewrite Hrun. unfold reconcile, mutating_calls.
        rewrite (bind_return _ _ _ _ _ H1), (bind_uncaught _ _ _ _ _ H2).
        cbn [fst]. rewrite Hc2. reflexivity. }
    destruct (Json.py_ne public_ip existing_ip) eqn:Hcmp.
    + exists p1, k, n, z, p2, public_ip, p3, existing_ip, record_id.
      repeat split; assumption.
    + exfalso. apply Hmut.
      rewrite Hrun, (reconcile_resolved lib w k n z _ p2 p3 _ _ _ H1 H2), Hcmp.
      unfold mutating_calls. cbn [fst calls]. rewrite Hc2. reflexivity.
Qed.

Lemma zone_mutated_only_when_ips_differ_witness :
  mutating_calls (fst (run Demo.lib Demo.scenario1)) = []
  /\ exit_status (snd (run Demo.lib Demo.scenario1)) = 0%Z.
Proof.
  destruct (proj1 (zone_mutated_only_when_ips_differ Demo.lib Demo.scenario1)
              _ "K" "example.com" "Z1" _ (JStr "1.2.3.4") _ (JStr "1.2.3.4") (JStr "R1")
              eq_refl eq_refl eq_refl eq_refl)
    as (Hnone & _ & _ & Hexit).
  split; [exact Hnone | exact Hexit].
Defined.

(** C2. In a run where the public address fetched and the recorded
    address differ, exactly one mutating call is made, after the two
    lookups: a PATCH to the record that was looked up, whose body is the
    JSON of a dict with [content] the new public address and [comment]
    the text "Updated from", the old address, "on" and the local time
    written YYYY-MM-DD at HH:MM:SS.  When the PATCH is answered with
    status 200 the process exits with status 0. *)
Theorem differing_ips_patch_once (lib : PyLib) (w : World)
    (p1 p2 p3 : Proc) (k n z : string) (public_ip existing_ip record_id : json) :
  _read_envs w (mkProc [] []) = (p1, Return (k, n, z)) ->
  check_public_ip lib w (fst (announce k n z p1)) = (p2, Return public_ip) ->
  check_zone_apex lib w k n z p2 = (p3, Return (existing_ip, record_id)) ->
  Json.py_ne public_ip existing_ip = true ->
  Datetime.valid (now w) ->
  let comment := "Updated from " ++ py_str lib existing_ip ++ " on " ++ comment_date w in
  let patch :=
    mkRequest (CLOUDFLARE_API ++ "/" ++ z ++ "/dns_records/" ++ py_str lib record_id)
      "PATCH"
      [("Authorization", "Bearer " ++ k); ("Content-Type", "application/json")]
      (Some (dumps lib (JObj [("comment", JStr comment); ("content", public_ip)]))) in
  Datetime.is_timestamp (comment_date w) = true
  /\ mutating_calls (fst (run lib w)) = [mkCall patch TIMEOUT]
  /\ calls (fst (run lib w))
     = [mkCall (ip_request lib) TIMEOUT; mkCall (zone_request lib k n z) TIMEOUT;
        mkCall patch TIMEOUT]
  /\ (forall h c,
        urlopen w [mkCall (ip_request lib) TIMEOUT; mkCall (zone_request lib k n z) TIMEOUT]
          patch TIMEOUT = Responded 200 h c ->
        snd (run lib w) = SystemExit 0%Z /\ exit_status (snd (run lib w)) = 0%Z).
Proof.
  intros H0 H1 H2 Hcmp Hnow comment patch.
  split; [apply strftime_is_timestamp; exact Hnow|].
  destruct (run_resolved lib w p1 k n z H0) as [Hrun Hfresh].
  rewrite Hrun, (reconcile_resolved lib w k n z _ p2 p3 _ _ _ H1 H2), Hcmp.
  destruct (check_public_ip_returns lib w _ _ _ H1) as [-> _].
  destruct (check_zone_apex_returns lib w _ _ _ _ _ _ H2) as [-> _].
  cbv zeta. rewrite update_zone_apex_run. cbn [calls stdout]. rewrite Hfresh.
  change (patch_request lib k z record_id (update_comment lib w existing_ip) public_ip)
    with patch.
  cbn [app].
  destruct (urlopen w _ patch TIMEOUT) as [s h c|cls ln msg] eqn:Hpatch.
  - destruct (Z.eqb_spec s 200) as [->|Hs].
    + split; [reflexivity|]. split; [reflexivity|]. intros _ _ _. split; reflexivity.
    + split; [reflexivity|]. split; [reflexivity|].
      intros h' c' [= E _ _]. contradiction.
  - split; [reflexivity|]. split; [reflexivity|]. intros h' c' [=].
Qed.

Lemma differing_ips_patch_once_witness :
  map (fun c => (url (call_request c), data (call_request c)))
    (mutating_calls (fst (run Demo.lib Demo.scenario2)))
  = [("https://api.cloudflare.com/client/v4/zones/Z1/dns_records/R1",
      Some (Demo.dumps
              (JObj [("comment", JStr "Updated from 1.2.3.4 on 2024-03-09 at 07:05:00");
                     ("content", JStr "5.6.7.8")])))]
  /\ exit_status (snd (run Demo.lib Demo.scenario2)) = 0%Z.
Proof.
  destruct (differing_ips_patch_once Demo.lib Demo.scenario2
              _ _ _ "K" "example.com" "Z1" (JStr "5.6.7.8") (JStr "1.2.3.4") (JStr "R1")
              eq_refl eq_refl eq_refl eq_refl)
    as (_ & Hone & _ & Hexit).
  - unfold Datetime.valid. cbn. lia.
  - rewrite Hone. split; [reflexivity|].
    apply (Hexit [] "{}"). reflexivity.
Defined.

(** C3. When the zone lookup is answered with status 200 and a body whose
    [result] is the empty list, taking its first element raises an
    IndexError that nothing catches: the interpreter reports it and the
    process ends with status 1.  The two lookups are the only calls made,
    so no PATCH is issued, and nothing is printed after the lookup: the
    run does not end as one where the addresses are consistent. *)
Theorem empty_result_is_fatal (lib : PyLib) (w : World)
    (p1 p2 : Proc) (k n z : string) (public_ip : json)
    (h : list (string * string)) (c : string) (doc : json) :
  _read_envs w (mkProc [] []) = (p1, Return (k, n, z)) ->
  check_public_ip lib w (fst (announce k n z p1)) = (p2, Return public_ip) ->
  urlopen w (calls p2) (zone_request lib k n z) TIMEOUT = Responded 200 h c ->
  loads lib c = Ok doc ->
  Json.getitem_str doc "result" = Ok (JArr []) ->
  snd (run lib w) = Uncaught IndexError
  /\ exit_status (snd (run lib w)) <> 0%Z
  /\ traceback (snd (run lib w)) = Some "IndexError"
  /\ mutating_calls (fst (run lib w)) = []
  /\ calls (fst (run lib w))
     = [mkCall (ip_request lib) TIMEOUT; mkCall (zone_request lib k n z) TIMEOUT]
  /\ stdout (fst (run lib w)) = stdout p2.
Proof.
  intros H0 H1 Hzone Hdoc Hresult.
  destruct (run_resolved lib w p1 k n z H0) as [Hrun Hfresh].
  assert (H2 : check_zone_apex lib w k n z p2
               = (mkProc (stdout p2)
                    (calls p2 ++ [mkCall (zone_request lib k n z) TIMEOUT])%list,
                  Uncaught IndexError)).
  { rewrite check_zone_apex_run, Hzone. unfold parsed_record.
    rewrite Hdoc. cbn [res_bind]. rewrite Hresult. reflexivity. }
  rewrite Hrun. unfold reconcile.
  rewrite (bind_return _ _ _ _ _ H1), (bind_uncaught _ _ _ _ _ H2).
  destruct (check_public_ip_returns lib w _ _ _ H1) as [-> _].
  unfold mutating_calls. cbn [fst snd calls stdout]. rewrite Hfresh.
  repeat split. discriminate.
Qed.

Lemma empty_result_is_fatal_witness :
  let w := Demo.world "5.6.7.8" (Responded 200 [] Demo.empty_zone_doc) Demo.patch_ok in
  snd (run Demo.lib w) = Uncaught IndexError
  /\ mutating_calls (fst (run Demo.lib w)) = [].
Proof.
  intros w.
  destruct (empty_result_is_fatal Demo.lib w _ _ "K" "example.com" "Z1" (JStr "5.6.7.8")
              [] Demo.empty_zone_doc (JObj [("result", JArr [])])
              eq_refl eq_refl eq_refl eq_refl eq_refl)
    as (Hout & _ & _ & Hnone & _).
  split; [exact Hout | exact Hnone].
Defined.

(** C4. An exchange that does not end in a response of status 200 (another
    status, or the exception [urlopen] raises for an error status) ends the
    run with exit status 1, and it is the last call of the run: after the
    address lookup no zone lookup is made, after the zone lookup no PATCH,
    and after the PATCH nothing. *)
Theorem non_200_stops_the_run (lib : PyLib) (w : World) (p1 : Proc) (k n z : string) :
  _read_envs w (mkProc [] []) = (p1, Return (k, n, z)) ->
  let ip_call := mkCall (ip_request lib) TIMEOUT in
  let zone_call := mkCall (zone_request lib k n z) TIMEOUT in
  (not_200 (urlopen w [] (ip_request lib) TIMEOUT) ->
     snd (run lib w) = SystemExit 1%Z
     /\ exit_status (snd (run lib w)) <> 0%Z
     /\ calls (fst (run lib w)) = [ip_call])
  /\ (forall p2 public_ip,
        check_public_ip lib w (fst (announce k n z p1)) = (p2, Return public_ip) ->
        not_200 (urlopen w [ip_call] (zone_request lib k n z) TIMEOUT) ->
        snd (run lib w) = SystemExit 1%Z
        /\ exit_status (snd (run lib w)) <> 0%Z
        /\ calls (fst (run lib w)) = [ip_call; zone_call])
  /\ (forall p2 public_ip p3 existing_ip record_id,
        check_public_ip lib w (fst (announce k n z p1)) = (p2, Return public_ip) ->
        check_zone_apex lib w k n z p2 = (p3, Return (existing_ip, record_id)) ->
        Json.py_ne public_ip existing_ip = true ->
        let patch := patch_request lib k z record_id
                       (update_comment lib w existing_ip) public_ip in
        not_200 (urlopen w [ip_call; zone_call] patch TIMEOUT) ->
        snd (run lib w) = SystemExit 1%Z
        /\ exit_status (snd (run lib w)) <> 0%Z
        /\ calls (fst (run lib w)) = [ip_call; zone_call; mkCall patch TIMEOUT]).
Proof.
  intros H0 ip_call zone_call.
  destruct (run_resolved lib w p1 k n z H0) as [Hrun Hfresh].
  rewrite Hrun. split; [|split].
  - intros Hno. rewrite <- Hfresh in Hno.
    destruct (check_public_ip_not_200 lib w _ Hno) as [out H1].
    unfold reconcile. rewrite (bind_exit _ _ _ _ _ H1). cbn [fst snd calls].
    rewrite Hfresh. repeat split. discriminate.
  - intros p2 public_ip H1 Hno.
    destruct (check_public_ip_returns lib w _ _ _ H1) as [-> _].
    rewrite Hfresh in H1.
    assert (Hno' : not_200 (urlopen w (calls (mkProc (stdout (fst (announce k n z p1)))
                                               ([] ++ [ip_call])%list))
                              (zone_request lib k n z) TIMEOUT)) by exact Hno.
    destruct (check_zone_apex_not_200 lib w k n z _ Hno') as [out H2].
    unfold reconcile.
    rewrite (bind_return _ _ _ _ _ H1), (bind_exit _ _ _ _ _ H2).
    cbn [fst snd calls]. repeat split. discriminate.
  - intros p2 public_ip p3 existing_ip record_id H1 H2 Hcmp patch Hno.
    rewrite (reconcile_resolved lib w k n z _ p2 p3 _ _ _ H1 H2), Hcmp.
    destruct (check_public_ip_returns lib w _ _ _ H1) as [-> _].
    destruct (check_zone_apex_returns lib w _ _ _ _ _ _ H2) as [-> _].
    cbv zeta. cbn [calls stdout]. rewrite Hfresh.
    match goal with
    | |- context [update_zone_apex lib w k z record_id existing_ip public_ip ?q] =>
        destruct (update_zone_apex_not_200 lib w k z record_id existing_ip public_ip q)
          as [out H3]; [exact Hno|]; rewrite H3
    end.
    cbn [fst snd calls]. repeat split. discriminate.
Qed.

Lemma non_200_stops_the_run_witness :
  snd (run Demo.lib Demo.scenario3) = SystemExit 1%Z
  /\ map (fun c => method (call_request c)) (calls (fst (run Demo.lib Demo.scenario3)))
     = ["GET"; "GET"].
Proof.
  destruct (non_200_stops_the_run Demo.lib Demo.scenario3 _ "K" "example.com" "Z1" eq_refl)
    as (_ & Hzone & _).
  destruct (Hzone _ (JStr "5.6.7.8") eq_refl I) as (Hexit & _ & Hcalls).
  rewrite Hcalls. split; [exact Hexit | reflexivity].
Defined.

(** C7. The wrapper makes one call of [urlopen], with the timeout 30.  If
    the exchange yields a response, the wrapper returns its status, headers
    and content together and prints nothing; if it raises, the wrapper
    prints a line with the class of the exception and its message and
    exits with status 1.  Nothing else can come of a call.  Every call of
    a run is made through the wrapper, so every call of a run has the
    timeout 30. *)
Theorem http_request_all_or_nothing (lib : PyLib) (w : World)
    (url method : string) (hs : list (string * string))
    (body : list (string * json)) (params : list (string * string)) (p : Proc) :
  let r := __http_request lib w url method hs body params p in
  TIMEOUT = 30%Z
  /\ (exists req,
        calls (fst r) = (calls p ++ [mkCall req 30])%list
        /\ ((exists s h c,
               urlopen w (calls p) req 30 = Responded s h c
               /\ snd r = Return (mkResponse s h c)
               /\ stdout (fst r) = stdout p)
            \/ (exists cls lineno msg,
                  urlopen w (calls p) req 30 = Failed cls lineno msg
                  /\ snd r = SystemExit 1%Z
                  /\ exit_status (snd r) <> 0%Z
                  /\ stdout (fst r)
                     = (stdout p ++
                        [("Unexpected exception during HTTP request: " ++ cls ++ " at "
                          ++ PyStr.str_of_nat lineno ++ ": " ++ msg)%string])%list)))
  /\ Forall (fun c => call_timeout c = 30%Z) (calls (fst (run lib w))).
Proof.
  intros r. split; [reflexivity|]. split; [|apply run_timeouts].
  subst r. rewrite http_request_run. cbv zeta.
  match goal with
  | |- context [urlopen w (calls p) ?req TIMEOUT] =>
      exists req; destruct (urlopen w (calls p) req TIMEOUT) as [s h c|cls ln msg] eqn:E
  end.
  - split; [reflexivity|]. left. exists s, h, c. change 30%Z with TIMEOUT.
    rewrite E. repeat split.
  - split; [reflexivity|]. right. exists cls, ln, msg. change 30%Z with TIMEOUT.
    rewrite E. repeat split. discriminate.
Qed.

(* ================================================================== *)
(** * More on the credential resolver *)
(* ================================================================== *)

(** What [_read_envs] does when there is no [.env] file to read, by the
    three variables. *)
Lemma read_envs_environ (w : World) (p : Proc) :
  dotenv w = NoEntry \/ dotenv w = NotAFile ->
  let said := (stdout p ++ [no_file_line w])%list in
  let stop key := (mkProc (said ++ [missing_from_environ key])%list (calls p),
                   @SystemExit (string * string * string) 1%Z) in
  _read_envs w p =
    match environ w "api_key" with
    | None => stop "api_key"
    | Some a =>
        match environ w "zone_name" with
        | None => stop "zone_name"
        | Some n =>
            match environ w "zone_id" with
            | None => stop "zone_id"
            | Some z => (mkProc said (calls p), Return (a, n, z))
            end
        end
    end.
Proof.
  intros Hno. unfold _read_envs.
  destruct (dotenv w) as [| |readlines|cls msg];
    [| |exfalso; destruct Hno; discriminate..].
  all: unfold bind at 1; cbn [print]; unfold environ_getitem;
    destruct (environ w "api_key"); [|reflexivity];
    destruct (environ w "zone_name"); [|reflexivity];
    destruct (environ w "zone_id"); reflexivity.
Qed.

(** X1. Without a [.env] file that is a regular file (no entry, or an
    entry that is not a file), resolution succeeds exactly when the three
    variables are set in the environment, and then returns their values in
    the order key, zone, id, after one line that says the file was not
    found. *)
Theorem environment_fallback (w : World) (p : Proc) :
  dotenv w = NoEntry \/ dotenv w = NotAFile ->
  ((exists t, snd (_read_envs w p) = Return t)
   <-> (exists a n z, environ w "api_key" = Some a /\ environ w "zone_name" = Some n
                      /\ environ w "zone_id" = Some z))
  /\ (forall a n z,
        environ w "api_key" = Some a -> environ w "zone_name" = Some n ->
        environ w "zone_id" = Some z ->
        _read_envs w p
        = (mkProc (stdout p ++
                   [("No .env file found at " ++ dotenv_path w
                     ++ ", reading environment instead")%string])%list (calls p),
           Return (a, n, z))).
Proof.
  intros Hd.
  rewrite (read_envs_environ w p Hd). split; [split|].
  - intros [t Ht].
    destruct (environ w "api_key") as [a|]; [|discriminate].
    destruct (environ w "zone_name") as [n|]; [|discriminate].
    destruct (environ w "zone_id") as [z|]; [|discriminate].
    exists a, n, z. repeat split.
  - intros (a & n & z & -> & -> & ->). eexists. reflexivity.
  - intros a n z -> -> ->. reflexivity.
Qed.

Lemma environment_fallback_witness :
  _read_envs Demo.env_world Demo.fresh
  = (mkProc ["No .env file found at /opt/cfddns/.env, reading environment instead"] [],
     Return ("K", "example.com", "Z1")).
Proof.
  destruct (environment_fallback Demo.env_world Demo.fresh (or_introl eq_refl))
    as [_ Hvalues].
  exact (Hvalues "K" "example.com" "Z1" eq_refl eq_refl eq_refl).
Defined.

(** X2. Without a [.env] file, a variable missing from the environment
    ends resolution with exit status 1.  The key named is the first of
    [api_key], [zone_name], [zone_id] that is not set, and the line shows
    it between two pairs of quotes, the script's own and those of the
    exception's text. *)
Theorem environment_key_missing (w : World) (p : Proc) (key : string) :
  dotenv w = NoEntry \/ dotenv w = NotAFile ->
  In key required_keys ->
  environ w key = None ->
  (forall k, In k (keys_before key) -> exists v, environ w k = Some v) ->
  _read_envs w p
  = (mkProc (stdout p ++
             [("No .env file found at " ++ dotenv_path w
               ++ ", reading environment instead")%string;
              ("Key ''" ++ key ++ "'' missing from environment variables!")%string])%list
       (calls p),
     SystemExit 1%Z).
Proof.
  intros Hd Hkey Hnone Hbefore.
  rewrite (read_envs_environ w p Hd). cbv zeta. rewrite <- !app_assoc. cbn [app].
  simpl in Hkey. destruct Hkey as [<-|[<-|[<-|[]]]].
  - rewrite Hnone. reflexivity.
  - destruct (Hbefore "api_key") as [a ->]; [simpl; auto|].
    rewrite Hnone. reflexivity.
  - destruct (Hbefore "api_key") as [a ->]; [simpl; auto|].
    destruct (Hbefore "zone_name") as [n ->]; [simpl; auto|].
    rewrite Hnone. reflexivity.
Qed.

Lemma environment_key_missing_witness :
  _read_envs Demo.env_missing_world Demo.fresh
  = (mkProc ["No .env file found at /opt/cfddns/.env, reading environment instead";
             "Key ''zone_name'' missing from environment variables!"] [],
     SystemExit 1%Z).
Proof.
  apply (environment_key_missing Demo.env_missing_world Demo.fresh "zone_name"
           (or_intror eq_refl) (or_intror (or_introl eq_refl)) eq_refl).
  intros k [<-|[]]. exists "K". reflexivity.
Defined.

Lemma partition_join (sep : ascii) (s a b : string) :
  PyStr.partition sep s = Some (a, b) ->
  s = a ++ String sep b /\ PyStr.partition sep a = None.
Proof.
  revert a b. induction s as [|c s IH]; intros a b; cbn [PyStr.partition]; [discriminate|].
  destruct (Ascii.eqb_spec c sep) as [->|Hc].
  - intros [= <- <-]. split; reflexivity.
  - destruct (PyStr.partition sep s) as [[a' b']|]; [|discriminate].
    intros [= <- <-]. destruct (IH a' b' eq_refl) as [-> Ha]. split; [reflexivity|].
    cbn [PyStr.partition]. destruct (Ascii.eqb_spec c sep); [contradiction|].
    rewrite Ha. reflexivity.
Qed.

Lemma split1_single (s key : string) :
  PyStr.split1 "=" s = [key] <-> s = key /\ PyStr.partition "=" key = None.
Proof.
  unfold PyStr.split1. split.
  - destruct (PyStr.partition "=" s) as [[a b]|] eqn:Hs; [discriminate|].
    intros [= <-]. split; [reflexivity | exact Hs].
  - intros [-> Hk]. rewrite Hk. reflexivity.
Qed.

Lemma values_of_raise_inv (key : string) (lines : list (list string)) (e : pyexn) :
  (forall l, In l lines -> l <> []) ->
  values_of key lines = Raise e -> In [key] lines.
Proof.
  induction lines as [|l lines IH]; intros Hne; [discriminate|].
  rewrite values_of_cons.
  assert (Hne' : forall l', In l' lines -> l' <> []) by (intros; apply Hne; right; assumption).
  destruct l as [|k [|v tl]]; [exfalso; apply (Hne []); [left|]; reflexivity| |];
    cbn [nth_error]; destruct (String.eqb_spec k key) as [->|_].
  - intros _. left. reflexivity.
  - intros H. right. exact (IH Hne' H).
  - destruct (values_of key lines) as [vs|e'] eqn:Hv; [discriminate|].
    intros [= ->]. right. apply IH; [exact Hne' | reflexivity].
  - intros H. right. exact (IH Hne' H).
Qed.

Lemma values_of_nil_inv (key : string) (lines : list (list string)) :
  values_of key lines = Ok [] ->
  forall l, In l lines -> nth_error l 0 <> Some key.
Proof.
  induction lines as [|l lines IH]; intros Hv l' Hin; [destruct Hin|].
  rewrite values_of_cons in Hv.
  destruct (nth_error l 0) as [k|] eqn:Hk; [|discriminate].
  destruct (String.eqb_spec k key) as [->|Hneq].
  - destruct (nth_error l 1); [|discriminate].
    destruct (values_of key lines); discriminate.
  - destruct Hin as [<-|Hin]; [congruence | exact (IH Hv l' Hin)].
Qed.

(** X3. A key of the file is reported missing in exactly two cases: no
    line has it on the left of its first [=], or some line is, once
    stripped, the key alone.  In every other case the lookup has a
    value. *)
Theorem key_missing_iff (key : string) (readlines : list string) :
  PyStr.partition "=" key = None ->
  (first_value_of key (format_lines readlines) = Raise IndexError
   <-> key_absent key readlines
       \/ exists l, In l readlines /\ PyStr.strip l = key)
  /\ (first_value_of key (format_lines readlines) = Raise IndexError
      \/ exists v, first_value_of key (format_lines readlines) = Ok v).
Proof.
  intros Hkey. split; [split|].
  - unfold first_value_of.
    destruct (values_of key (format_lines readlines)) as [vs|e] eqn:Hv; cbn [res_bind].
    + destruct vs as [|v vs]; [|discriminate]. intros _. left.
      exact (values_of_nil_inv key _ Hv).
    + intros _. right.
      pose proof (values_of_raise_inv key _ e (format_lines_nonempty readlines) Hv) as Hin.
      unfold format_lines in Hin. apply in_map_iff in Hin. destruct Hin as (l & Hl & Hin).
      exists l. split; [exact Hin|]. apply split1_single in Hl. apply Hl.
  - intros [Habs | (l & Hin & Hl)].
    + apply first_value_of_absent. exact Habs.
    + apply (first_value_of_bare key readlines l Hin Hl Hkey).
  - destruct (first_value_of key (format_lines readlines)) as [v|e] eqn:Hv.
    + right. exists v. reflexivity.
    + left. rewrite (first_value_of_raises _ _ _ Hv). reflexivity.
Qed.

Lemma key_missing_iff_witness :
  first_value_of "zone_id"
    (format_lines ["zone_id=Z1" ++ PyStr.newline; "  zone_id  " ++ PyStr.newline])
  = Raise IndexError.
Proof.
  apply (proj1 (key_missing_iff "zone_id"
                  ["zone_id=Z1" ++ PyStr.newline; "  zone_id  " ++ PyStr.newline]
                  eq_refl)).
  right. exists ("  zone_id  " ++ PyStr.newline). split; [right; left|]; reflexivity.
Defined.

(** X4. Formatting a line loses nothing but the white space at its two
    ends and the place of its first [=]: the fields of a formatted line,
    joined by [=], are the stripped line.  A formatted line has one field
    or two, and its first field has no [=]. *)
Theorem format_lines_join (readlines : list string) :
  map (String.concat "=") (format_lines readlines) = map PyStr.strip readlines
  /\ List.length (format_lines readlines) = List.length readlines
  /\ (forall l, In l (format_lines readlines) ->
        exists k rest,
          l = k :: rest /\ PyStr.partition "=" k = None
          /\ (rest = [] \/ exists v, rest = [v])).
Proof.
  unfold format_lines. split; [|split].
  - rewrite map_map. apply map_ext. intros s. unfold PyStr.split1.
    destruct (PyStr.partition "=" (PyStr.strip s)) as [[a b]|] eqn:Hp; [|reflexivity].
    destruct (partition_join _ _ _ _ Hp) as [-> _]. reflexivity.
  - apply length_map.
  - intros l Hin. apply in_map_iff in Hin. destruct Hin as (s & <- & _).
    unfold PyStr.split1.
    destruct (PyStr.partition "=" (PyStr.strip s)) as [[a b]|] eqn:Hp.
    + exists a, [b]. destruct (partition_join _ _ _ _ Hp) as [_ Ha].
      repeat split; [exact Ha|]. right. exists b. reflexivity.
    + exists (PyStr.strip s), []. repeat split; [exact Hp|]. left. reflexivity.
Qed.

(** X5. The first well-formed line of a key decides its value: lines
    before it that do not have the key, and lines after it, whether or
    not they give the key another value, change nothing, as long as no
    later line is the key alone. *)
Theorem first_line_of_key_wins (key v : string) (line : string)
    (before after : list string) (later : list string) :
  format_lines [line] = [[key; v]] ->
  values_of key (format_lines before) = Ok [] ->
  values_of key (format_lines after) = Ok later ->
  first_value_of key (format_lines (before ++ line :: after)) = Ok v.
Proof.
  intros Hline Hbefore Hafter. unfold first_value_of, format_lines in *.
  rewrite map_app. cbn [map] in *. injection Hline as Hline.
  rewrite (values_of_app key _ _ (v :: later) Hbefore); [reflexivity|].
  rewrite values_of_cons, Hline. cbn [nth_error].
  rewrite String.eqb_refl, Hafter. reflexivity.
Qed.

Lemma first_line_of_key_wins_witness :
  first_value_of "zone_id"
    (format_lines ["api_key=K" ++ PyStr.newline; "zone_id=Z1" ++ PyStr.newline;
                   "zone_name=example.com" ++ PyStr.newline; "zone_id=Z2"])
  = Ok "Z1".
Proof.
  apply (first_line_of_key_wins "zone_id" "Z1" ("zone_id=Z1" ++ PyStr.newline)
           ["api_key=K" ++ PyStr.newline]
           ["zone_name=example.com" ++ PyStr.newline; "zone_id=Z2"] ["Z2"]
           eq_refl eq_refl eq_refl).
Defined.

Lemma all_space_cons (c : ascii) (s : string) :
  all_space (String c s) = true -> PyStr.isspace c = true /\ all_space s = true.
Proof. unfold all_space. cbn. intros H. apply andb_prop in H. exact H. Qed.

Lemma lstrip_all_space (pre s : string) :
  all_space pre = true -> PyStr.lstrip (pre ++ s) = PyStr.lstrip s.
Proof.
  induction pre as [|c pre IH]; intros Hpre; [reflexivity|].
  apply all_space_cons in Hpre as [Hc Hpre]. cbn. rewrite Hc. exact (IH Hpre).
Qed.

Lemma rstrip_all_space (s post : string) :
  all_space post = true -> PyStr.rstrip (s ++ post) = PyStr.rstrip s.
Proof.
  intros Hpost.
  assert (Hnil : PyStr.rstrip post = EmptyString).
  { induction post as [|c post IH]; [reflexivity|].
    apply all_space_cons in Hpost as [Hc Hpost]. cbn. rewrite (IH Hpost), Hc.
    reflexivity. }
  induction s as [|c s IH]; [exact Hnil|].
  cbn. rewrite IH. reflexivity.
Qed.

Lemma strip_padding (pre s post : string) :
  all_space pre = true -> all_space post = true ->
  PyStr.strip (pre ++ s ++ post) = PyStr.strip s.
Proof.
  intros Hpre Hpost. unfold PyStr.strip. rewrite (lstrip_all_space pre _ Hpre).
  assert (Hnil : PyStr.lstrip post = EmptyString).
  { clear - Hpost. induction post as [|c post IH]; [reflexivity|].
    apply all_space_cons in Hpost as [Hc Hpost]. cbn. rewrite Hc. exact (IH Hpost). }
  induction s as [|c s IH].
  - cbn [append]. rewrite Hnil. reflexivity.
  - cbn [append PyStr.lstrip]. destruct (PyStr.isspace c); [exact IH|].
    change (String c (s ++ post)) with (String c s ++ post).
    apply rstrip_all_space. exact Hpost.
Qed.

(** X6. White space around a line, indentation before it and blanks, a
    carriage return or a newline after it, has no part in what the file
    says: two files whose lines differ only by such padding are resolved
    alike. *)
Theorem padding_of_lines_is_ignored (w w' : World) (readlines readlines' : list string)
    (p : Proc) :
  dotenv w = RegularFile readlines ->
  dotenv w' = RegularFile readlines' ->
  dotenv_path w' = dotenv_path w ->
  Forall2 (fun l l' => exists pre post,
             all_space pre = true /\ all_space post = true /\ l' = pre ++ l ++ post)
    readlines readlines' ->
  format_lines readlines' = format_lines readlines
  /\ _read_envs w' p = _read_envs w p.
Proof.
  intros Hd Hd' Hpath Hpad.
  assert (Hsame : format_lines readlines' = format_lines readlines).
  { clear - Hpad. unfold format_lines. induction Hpad as [|l l' ls ls' (pre & post & Hpre & Hpost & ->) _ IH];
      [reflexivity|].
    cbn [map]. rewrite (strip_padding pre l post Hpre Hpost), IH. reflexivity. }
  split; [exact Hsame|].
  rewrite (read_envs_file w readlines p Hd), (read_envs_file w' readlines' p Hd').
  rewrite Hsame, Hpath. reflexivity.
Qed.

Lemma padding_of_lines_is_ignored_witness :
  format_lines [String (ascii_of_nat 9) ("api_key=K" ++ String (ascii_of_nat 13) PyStr.newline);
                "  zone_id=Z1  "]
  = format_lines ["api_key=K"; "zone_id=Z1"].
Proof.
  refine (proj1 (padding_of_lines_is_ignored
                   (mkWorld "/opt/cfddns/.env" (RegularFile ["api_key=K"; "zone_id=Z1"])
                      (fun _ => None) (urlopen Demo.env_world) Demo.clock)
                   (mkWorld "/opt/cfddns/.env"
                      (RegularFile
                         [String (ascii_of_nat 9)
                            ("api_key=K" ++ String (ascii_of_nat 13) PyStr.newline);
                          "  zone_id=Z1  "])
                      (fun _ => None) (urlopen Demo.env_world) Demo.clock)
                   _ _ Demo.fresh eq_refl eq_refl eq_refl _)).
  constructor; [|constructor; [|constructor]].
  - exists (String (ascii_of_nat 9) EmptyString), (String (ascii_of_nat 13) PyStr.newline).
    repeat split.
  - exists "  ", "  ". repeat split.
Defined.

(* ================================================================== *)
(** * More on the workflow *)
(* ================================================================== *)

Lemma read_envs_outcome (w : World) (p : Proc) :
  snd (_read_envs w p) = SystemExit 1%Z
  \/ (exists t, snd (_read_envs w p) = Return t)
  \/ (exists cls msg,
        dotenv w = UnreadableFile cls msg
        /\ snd (_read_envs w p) = Uncaught (LibError cls msg)).
Proof.
  destruct (dotenv w) as [| |readlines|cls msg] eqn:Hd.
  1,2: rewrite (read_envs_environ w p) by (rewrite Hd; auto);
       destruct (environ w "api_key"); [|left; reflexivity];
       destruct (environ w "zone_name"); [|left; reflexivity];
       destruct (environ w "zone_id"); [|left; reflexivity];
       right; left; eexists; reflexivity.
  2:{ right. right. exists cls, msg. rewrite (read_envs_file_unreadable w p cls msg Hd).
      split; reflexivity. }
  rewrite (read_envs_file w readlines p Hd).
  destruct (first_value_of "api_key" _); [|left; reflexivity].
  destruct (first_value_of "zone_name" _); [|left; reflexivity].
  destruct (first_value_of "zone_id" _); [|left; reflexivity].
  right. left. eexists. reflexivity.
Qed.

Section RunFacts.

Variable lib : PyLib.
Variable w : World.

Lemma check_public_ip_outcome (p : Proc) :
  (exists v, snd (check_public_ip lib w p) = Return v)
  \/ exit_status (snd (check_public_ip lib w p)) = 1%Z.
Proof.
  rewrite check_public_ip_run.
  destruct (urlopen w (calls p) (ip_request lib) TIMEOUT) as [s h c|cls ln msg];
    [|right; reflexivity].
  destruct (Z.eqb s 200); [|right; reflexivity].
  destruct (parsed_ip lib c); [left; eexists|right]; reflexivity.
Qed.

Lemma check_zone_apex_outcome (k n z : string) (p : Proc) :
  (exists r, snd (check_zone_apex lib w k n z p) = Return r)
  \/ exit_status (snd (check_zone_apex lib w k n z p)) = 1%Z.
Proof.
  rewrite check_zone_apex_run.
  destruct (urlopen w (calls p) (zone_request lib k n z) TIMEOUT) as [s h c|cls ln msg];
    [|right; reflexivity].
  destruct (Z.eqb s 200); [|right; reflexivity].
  destruct (parsed_record lib c); [left; eexists|right]; reflexivity.
Qed.

Lemma update_zone_apex_outcome (k z : string) (rid old_ip new_ip : json) (p : Proc) :
  let req := patch_request lib k z rid (update_comment lib w old_ip) new_ip in
  ((exists h c, urlopen w (calls p) req TIMEOUT = Responded 200 h c)
   /\ snd (update_zone_apex lib w k z rid old_ip new_ip p) = Return tt)
  \/ (not_200 (urlopen w (calls p) req TIMEOUT)
      /\ snd (update_zone_apex lib w k z rid old_ip new_ip p) = SystemExit 1%Z).
Proof.
  intros req. rewrite update_zone_apex_run. fold req.
  destruct (urlopen w (calls p) req TIMEOUT) as [s h c|cls ln msg];
    [|right; split; [exact I|reflexivity]].
  destruct (Z.eqb_spec s 200) as [->|Hs].
  - left. split; [exists h, c|]; reflexivity.
  - right. split; [exact Hs|reflexivity].
Qed.

(** The ways a run can go, with the calls it makes and how it ends. *)
Lemma run_cases :
  let ip_call := mkCall (ip_request lib) TIMEOUT in
  ((forall t, snd (_read_envs w (mkProc [] [])) <> Return t)
   /\ calls (fst (run lib w)) = [] /\ exit_status (snd (run lib w)) = 1%Z)
  \/ exists p1 k n z,
       _read_envs w (mkProc [] []) = (p1, Return (k, n, z))
       /\ let zone_call := mkCall (zone_request lib k n z) TIMEOUT in
          (((forall v, snd (check_public_ip lib w (fst (announce k n z p1))) <> Return v)
            /\ calls (fst (run lib w)) = [ip_call]
            /\ exit_status (snd (run lib w)) = 1%Z)
           \/ exists p2 public_ip,
                check_public_ip lib w (fst (announce k n z p1)) = (p2, Return public_ip)
                /\ (((forall r, snd (check_zone_apex lib w k n z p2) <> Return r)
                     /\ calls (fst (run lib w)) = [ip_call; zone_call]
                     /\ exit_status (snd (run lib w)) = 1%Z)
                    \/ exists p3 existing_ip record_id,
                         check_zone_apex lib w k n z p2
                         = (p3, Return (existing_ip, record_id))
                         /\ ((Json.py_ne public_ip existing_ip = false
                              /\ calls (fst (run lib w)) = [ip_call; zone_call]
                              /\ snd (run lib w) = SystemExit 0%Z)
                             \/ (Json.py_ne public_ip existing_ip = true
                                 /\ let patch := patch_request lib k z record_id
                                                   (update_comment lib w existing_ip)
                                                   public_ip in
                                    calls (fst (run lib w))
                                    = [ip_call; zone_call; mkCall patch TIMEOUT]
                                    /\ (((exists h c,
                                            urlopen w [ip_call; zone_call] patch TIMEOUT
                                            = Responded 200 h c)
                                         /\ snd (run lib w) = SystemExit 0%Z)
                                        \/ (not_200 (urlopen w [ip_call; zone_call]
                                                       patch TIMEOUT)
                                            /\ snd (run lib w) = SystemExit 1%Z)))))).
Proof.
  intros ip_call.
  pose proof (read_envs_calls w (mkProc [] [])) as Hc.
  destruct (_read_envs w (mkProc [] [])) as [p1 o] eqn:H0.
  destruct (read_envs_outcome w (mkProc [] []))
    as [Hout | [[[[k n] z] Hout] | (cls & msg & _ & Hout)]];
    rewrite H0 in Hout; cbn [snd] in Hout; subst o.
  { left. split; [discriminate|].
    unfold run, main. rewrite (bind_exit _ _ _ _ _ H0). split; [exact Hc|reflexivity]. }
  2:{ left. split; [discriminate|].
      unfold run, main. rewrite (bind_uncaught _ _ _ _ _ H0).
      split; [exact Hc|reflexivity]. }
  clear Hc. right. exists p1, k, n, z. split; [reflexivity|]. intros zone_call.
  destruct (run_resolved lib w p1 k n z H0) as [Hrun Hfresh]. rewrite Hrun.
  pose proof (check_public_ip_calls lib w (fst (announce k n z p1))) as Hc1.
  rewrite Hfresh in Hc1.
  pose proof (check_public_ip_outcome (fst (announce k n z p1))) as Ho1.
  destruct (check_public_ip lib w (fst (announce k n z p1))) as [p2 o1] eqn:H1.
  cbn [fst snd] in Hc1, Ho1.
  destruct o1 as [public_ip|c|e].
  2:{ left. split; [discriminate|]. unfold reconcile. rewrite (bind_exit _ _ _ _ _ H1).
      destruct Ho1 as [[v Hv]|Ho1]; [discriminate|]. split; [exact Hc1 | exact Ho1]. }
  2:{ left. split; [discriminate|]. unfold reconcile.
      rewrite (bind_uncaught _ _ _ _ _ H1).
      destruct Ho1 as [[v Hv]|Ho1]; [discriminate|]. split; [exact Hc1 | exact Ho1]. }
  right. exists p2, public_ip. split; [reflexivity|].
  pose proof (check_zone_apex_calls lib w k n z p2) as Hc2. rewrite Hc1 in Hc2.
  pose proof (check_zone_apex_outcome k n z p2) as Ho2.
  destruct (check_zone_apex lib w k n z p2) as [p3 o2] eqn:H2.
  cbn [fst snd] in Hc2, Ho2.
  destruct o2 as [[existing_ip record_id]|c|e].
  2:{ left. split; [discriminate|]. unfold reconcile.
      rewrite (bind_return _ _ _ _ _ H1), (bind_exit _ _ _ _ _ H2).
      destruct Ho2 as [[v Hv]|Ho2]; [discriminate|]. split; [exact Hc2 | exact Ho2]. }
  2:{ left. split; [discriminate|]. unfold reconcile.
      rewrite (bind_return _ _ _ _ _ H1), (bind_uncaught _ _ _ _ _ H2).
      destruct Ho2 as [[v Hv]|Ho2]; [discriminate|]. split; [exact Hc2 | exact Ho2]. }
  right. exists p3, existing_ip, record_id. split; [reflexivity|].
  rewrite (reconcile_resolved lib w k n z _ p2 p3 _ _ _ H1 H2).
  destruct (Json.py_ne public_ip existing_ip).
  - right. split; [reflexivity|]. cbv zeta.
    match goal with
    | |- context [update_zone_apex lib w k z record_id existing_ip public_ip ?q] =>
        pose proof (update_zone_apex_calls lib w k z record_id existing_ip public_ip q)
          as Hc3;
        pose proof (update_zone_apex_outcome k z record_id existing_ip public_ip q)
          as Ho3;
        destruct (update_zone_apex lib w k z record_id existing_ip public_ip q)
          as [p5 o3]
    end.
    cbv zeta in Ho3. cbn [fst snd calls] in Hc3, Ho3. rewrite Hc2 in Hc3, Ho3.
    destruct Ho3 as [[Hok ->] | [Hbad ->]]; cbn [fst snd].
    + split; [exact Hc3|]. left. split; [exact Hok | reflexivity].
    + split; [exact Hc3|]. right. split; [exact Hbad | reflexivity].
  - left. split; [reflexivity|]. cbn [fst snd calls]. split; [exact Hc2 | reflexivity].
Qed.

End RunFacts.

(** X7. The calls of a run are an initial part of the sequence address
    lookup, zone lookup, update, in that order: at most three calls, at
    most one of them mutating, and a mutating call is the last call of
    the run. *)
Theorem run_calls_in_order (lib : PyLib) (w : World) :
  (exists k n z record_id old_ip new_ip rest,
     (calls (fst (run lib w)) ++ rest)%list
     = [mkCall (ip_request lib) TIMEOUT;
        mkCall (zone_request lib k n z) TIMEOUT;
        mkCall (patch_request lib k z record_id (update_comment lib w old_ip) new_ip)
          TIMEOUT])
  /\ List.length (mutating_calls (fst (run lib w))) <= 1
  /\ (mutating_calls (fst (run lib w)) = []
      \/ exists front c,
           calls (fst (run lib w)) = (front ++ [c])%list
           /\ mutating_calls (fst (run lib w)) = [c]).
Proof.
  unfold mutating_calls.
  destruct (run_cases lib w)
    as [(_ & Hc & _)
       | (p1 & k & n & z & _ &
          [(_ & Hc & _)
          | (p2 & public_ip & _ &
             [(_ & Hc & _)
             | (p3 & existing_ip & record_id & _ &
                [(_ & Hc & _) | (_ & Hc & _)])])])];
    rewrite Hc.
  - split; [|split; [cbn; lia | left; reflexivity]].
    exists "", "", "", JNull, JNull, JNull. eexists. reflexivity.
  - split; [|split; [cbn; lia | left; reflexivity]].
    exists k, n, z, JNull, JNull, JNull. eexists. reflexivity.
  - split; [|split; [cbn; lia | left; reflexivity]].
    exists k, n, z, JNull, JNull, JNull. eexists. reflexivity.
  - split; [|split; [cbn; lia | left; reflexivity]].
    exists k, n, z, JNull, JNull, JNull. eexists. reflexivity.
  - split; [|split; [cbn; lia |]].
    + exists k, n, z, record_id, existing_ip, public_ip, []. reflexivity.
    + right. eexists [_; _], _. split; reflexivity.
Qed.

(** X8. A run ends with exit status 0 or 1, and with 0 only when the
    credentials were resolved, both lookups returned, and either the two
    addresses compared equal or they differed and the PATCH was answered
    with status 200. *)
Theorem exit_zero_means_consistent_or_updated (lib : PyLib) (w : World) :
  (exit_status (snd (run lib w)) = 0%Z \/ exit_status (snd (run lib w)) = 1%Z)
  /\ (exit_status (snd (run lib w)) = 0%Z ->
      exists p1 k n z p2 public_ip p3 existing_ip record_id,
        _read_envs w (mkProc [] []) = (p1, Return (k, n, z))
        /\ check_public_ip lib w (fst (announce k n z p1)) = (p2, Return public_ip)
        /\ check_zone_apex lib w k n z p2 = (p3, Return (existing_ip, record_id))
        /\ (Json.py_ne public_ip existing_ip = false
            \/ (Json.py_ne public_ip existing_ip = true
                /\ exists h c,
                     urlopen w [mkCall (ip_request lib) TIMEOUT;
                                mkCall (zone_request lib k n z) TIMEOUT]
                       (patch_request lib k z record_id
                          (update_comment lib w existing_ip) public_ip) TIMEOUT
                     = Responded 200 h c))).
Proof.
  destruct (run_cases lib w)
    as [(_ & _ & Ho)
       | (p1 & k & n & z & H0 &
          [(_ & _ & Ho)
          | (p2 & public_ip & H1 &
             [(_ & _ & Ho)
             | (p3 & existing_ip & record_id & H2 &
                [(Hcmp & _ & Ho) | (Hcmp & _ & [(Hok & Ho) | (_ & Ho)])])])])];
    rewrite Ho; cbn [exit_status].
  1-3,6: split; [right; reflexivity | discriminate].
  - split; [left; reflexivity|]. intros _.
    exists p1, k, n, z, p2, public_ip, p3, existing_ip, record_id.
    split; [exact H0|]. split; [exact H1|]. split; [exact H2|]. left. exact Hcmp.
  - split; [left; reflexivity|]. intros _.
    exists p1, k, n, z, p2, public_ip, p3, existing_ip, record_id.
    split; [exact H0|]. split; [exact H1|]. split; [exact H2|]. right.
    split; [exact Hcmp | exact Hok].
Qed.

Lemma exit_zero_means_consistent_or_updated_witness :
  exists record_id h c,
    urlopen Demo.scenario2
      [mkCall (ip_request Demo.lib) TIMEOUT;
       mkCall (zone_request Demo.lib "K" "example.com" "Z1") TIMEOUT]
      (patch_request Demo.lib "K" "Z1" record_id
         (update_comment Demo.lib Demo.scenario2 (JStr "1.2.3.4")) (JStr "5.6.7.8"))
      TIMEOUT
    = Responded 200 h c.
Proof.
  destruct (proj2 (exit_zero_means_consistent_or_updated Demo.lib Demo.scenario2) eq_refl)
    as (p1 & k & n & z & p2 & public_ip & p3 & existing_ip & record_id & H0 & H1 & H2 & H).
  injection H0 as <- <- <- <-. injection H1 as <- <-. injection H2 as <- <- <-.
  destruct H as [H | [_ (h & c & H)]]; [discriminate H|].
  exists (JStr "R1"), h, c. exact H.
Defined.

(** X9. When [_read_envs] does not return credentials, the run stops
    there with exit status 1: no call is made to the address service or
    to the provider, and nothing is printed after the resolver's own
    lines.  Either a [.env] file is there and opening or reading it
    raised, and that exception is caught by nothing; or the resolver
    ended in [exit(1)] for a missing key.  With no file, or with a file
    that reads, resolution lets no exception through. *)
Theorem unresolved_credentials_no_network (lib : PyLib) (w : World) :
  (forall t, snd (_read_envs w (mkProc [] [])) <> Return t) ->
  calls (fst (run lib w)) = []
  /\ exit_status (snd (run lib w)) = 1%Z
  /\ stdout (fst (run lib w)) = stdout (fst (_read_envs w (mkProc [] [])))
  /\ ((exists cls msg,
         dotenv w = UnreadableFile cls msg
         /\ snd (run lib w) = Uncaught (LibError cls msg)
         /\ traceback (snd (run lib w)) = Some cls)
      \/ ((forall cls msg, dotenv w <> UnreadableFile cls msg)
          /\ snd (_read_envs w (mkProc [] [])) = SystemExit 1%Z
          /\ snd (run lib w) = SystemExit 1%Z)).
Proof.
  intros Hno.
  pose proof (read_envs_calls w (mkProc [] [])) as Hc.
  destruct (read_envs_outcome w (mkProc [] []))
    as [Hout | [[t Ht] | (cls & msg & Hd & Hout)]]; [|exfalso; exact (Hno t Ht)|].
  - assert (Hread : forall cls msg, dotenv w <> UnreadableFile cls msg).
    { intros cls msg Hd. rewrite (read_envs_file_unreadable w _ cls msg Hd) in Hout.
      discriminate Hout. }
    destruct (_read_envs w (mkProc [] [])) as [p1 o] eqn:H0. cbn [fst snd] in *. subst o.
    unfold run, main. rewrite (bind_exit _ _ _ _ _ H0). cbn [fst snd exit_status].
    repeat split; auto.
  - destruct (_read_envs w (mkProc [] [])) as [p1 o] eqn:H0. cbn [fst snd] in *. subst o.
    unfold run, main. rewrite (bind_uncaught _ _ _ _ _ H0). cbn [fst snd exit_status].
    repeat split; auto. left. exists cls, msg. repeat split. exact Hd.
Qed.

Lemma unresolved_credentials_no_network_witness :
  (calls (fst (run Demo.lib Demo.partial_file_world)) = []
   /\ exit_status (snd (run Demo.lib Demo.partial_file_world)) = 1%Z)
  /\ (calls (fst (run Demo.lib Demo.unreadable_file_world)) = []
      /\ exit_status (snd (run Demo.lib Demo.unreadable_file_world)) = 1%Z).
Proof.
  split.
  - destruct (unresolved_credentials_no_network Demo.lib Demo.partial_file_world)
      as (Hc & Ho & _); [intros t; discriminate|].
    split; [exact Hc | exact Ho].
  - destruct (unresolved_credentials_no_network Demo.lib Demo.unreadable_file_world)
      as (Hc & Ho & _); [intros t; discriminate|].
    split; [exact Hc | exact Ho].
Defined.

(** X10. When the address service answers with status 200 and a body
    that is not JSON, or JSON without an [ip] entry, the exception raised
    while reading it is caught by nothing: the run ends there with exit
    status 1 and the traceback of that exception, after this one call and
    with nothing more printed.  A dict without the key gives a KeyError,
    any other JSON value a TypeError. *)
Theorem malformed_address_body_is_fatal (lib : PyLib) (w : World)
    (p1 : Proc) (k n z : string) (h : list (string * string)) (c : string) (e : pyexn) :
  _read_envs w (mkProc [] []) = (p1, Return (k, n, z)) ->
  urlopen w [] (ip_request lib) TIMEOUT = Responded 200 h c ->
  parsed_ip lib c = Raise e ->
  (snd (run lib w) = Uncaught e
   /\ exit_status (snd (run lib w)) = 1%Z
   /\ traceback (snd (run lib w)) = Some (exn_class e)
   /\ calls (fst (run lib w)) = [mkCall (ip_request lib) TIMEOUT]
   /\ stdout (fst (run lib w)) = stdout (fst (announce k n z p1)))
  /\ (forall doc, loads lib c = Ok doc ->
        match doc with
        | JObj d => Json.assoc "ip" d = None /\ e = KeyError "'ip'"
        | _ => e = TypeError
        end).
Proof.
  intros H0 Hip Hbad.
  destruct (run_resolved lib w p1 k n z H0) as [Hrun Hfresh].
  split.
  - rewrite Hrun. unfold reconcile.
    assert (H1 : check_public_ip lib w (fst (announce k n z p1))
                 = (mkProc (stdout (fst (announce k n z p1)))
                      [mkCall (ip_request lib) TIMEOUT], Uncaught e)).
    { rewrite check_public_ip_run, Hfresh, Hip, Hbad. reflexivity. }
    rewrite (bind_uncaught _ _ _ _ _ H1). repeat split.
  - intros doc Hdoc. unfold parsed_ip in Hbad. rewrite Hdoc in Hbad. cbn [res_bind] in Hbad.
    destruct doc as [| | | | |d]; try (cbn in Hbad; congruence).
    cbn in Hbad. destruct (Json.assoc "ip" d); [discriminate|].
    split; [reflexivity | congruence].
Qed.

Lemma malformed_address_body_is_fatal_witness :
  let w := mkWorld "/opt/cfddns/.env" (RegularFile Demo.env_file) (fun _ => None)
             (fun _ _ _ => Responded 200 [] Demo.empty_zone_doc) Demo.clock in
  snd (run Demo.lib w) = Uncaught (KeyError "'ip'")
  /\ calls (fst (run Demo.lib w)) = [mkCall (ip_request Demo.lib) TIMEOUT].
Proof.
  intros w.
  destruct (malformed_address_body_is_fatal Demo.lib w _ "K" "example.com" "Z1"
              [] Demo.empty_zone_doc (KeyError "'ip'") eq_refl eq_refl eq_refl)
    as ((Ho & _ & _ & Hc & _) & _).
  split; [exact Ho | exact Hc].
Defined.

(** X11. When the zone lookup answers with status 200 and a body from
    which the first record's [content] and [id] cannot be read (not JSON,
    no [result], a first element without one of the two keys), the
    exception is caught by nothing: the run ends with exit status 1 after
    the two lookups, and no PATCH is made.  A first record that is a dict
    with [content] but without [id] gives a KeyError for [id]. *)
Theorem malformed_zone_body_is_fatal (lib : PyLib) (w : World)
    (p1 p2 : Proc) (k n z : string) (public_ip : json)
    (h : list (string * string)) (c : string) (e : pyexn) :
  _read_envs w (mkProc [] []) = (p1, Return (k, n, z)) ->
  check_public_ip lib w (fst (announce k n z p1)) = (p2, Return public_ip) ->
  urlopen w (calls p2) (zone_request lib k n z) TIMEOUT = Responded 200 h c ->
  parsed_record lib c = Raise e ->
  (snd (run lib w) = Uncaught e
   /\ exit_status (snd (run lib w)) = 1%Z
   /\ mutating_calls (fst (run lib w)) = []
   /\ calls (fst (run lib w))
      = [mkCall (ip_request lib) TIMEOUT; mkCall (zone_request lib k n z) TIMEOUT]
   /\ stdout (fst (run lib w)) = stdout p2)
  /\ (forall doc d rest ip,
        loads lib c = Ok doc ->
        Json.getitem_str doc "result" = Ok (JArr (JObj d :: rest)) ->
        Json.assoc "content" d = Some ip ->
        Json.assoc "id" d = None /\ e = KeyError "'id'").
Proof.
  intros H0 H1 Hzone Hbad.
  destruct (run_resolved lib w p1 k n z H0) as [Hrun Hfresh].
  split.
  - assert (H2 : check_zone_apex lib w k n z p2
                 = (mkProc (stdout p2)
                      (calls p2 ++ [mkCall (zone_request lib k n z) TIMEOUT])%list,
                    Uncaught e)).
    { rewrite check_zone_apex_run, Hzone, Hbad. reflexivity. }
    rewrite Hrun. unfold reconcile.
    rewrite (bind_return _ _ _ _ _ H1), (bind_uncaught _ _ _ _ _ H2).
    destruct (check_public_ip_returns lib w _ _ _ H1) as [-> _].
    unfold mutating_calls. cbn [fst snd calls stdout]. rewrite Hfresh. repeat split.
  - intros doc d rest ip Hdoc Hresult Hcontent.
    unfold parsed_record in Hbad. rewrite Hdoc in Hbad. cbn [res_bind] in Hbad.
    rewrite Hresult in Hbad. cbn in Hbad. rewrite Hcontent in Hbad. cbn in Hbad.
    destruct (Json.assoc "id" d); [discriminate|].
    split; [reflexivity|]. injection Hbad as <-. reflexivity.
Qed.

Lemma malformed_zone_body_is_fatal_witness :
  let w := Demo.world "5.6.7.8" (Responded 200 [] (Demo.ip_doc "1.2.3.4")) Demo.patch_ok in
  snd (run Demo.lib w) = Uncaught (KeyError "'result'")
  /\ mutating_calls (fst (run Demo.lib w)) = [].
Proof.
  intros w.
  destruct (malformed_zone_body_is_fatal Demo.lib w _ _ "K" "example.com" "Z1"
              (JStr "5.6.7.8") [] (Demo.ip_doc "1.2.3.4") (KeyError "'result'")
              eq_refl eq_refl eq_refl eq_refl)
    as ((Ho & _ & Hm & _) & _).
  split; [exact Ho | exact Hm].
Defined.

(** X12. Of the records the zone lookup lists, only the first is read:
    the address and the identifier returned are its [content] and its
    [id], whatever records follow it. *)
Theorem first_record_is_used (lib : PyLib) (w : World) (k n z : string) (p : Proc)
    (h : list (string * string)) (c : string) (doc first : json) (others : list json)
    (r_ip r_id : json) :
  urlopen w (calls p) (zone_request lib k n z) TIMEOUT = Responded 200 h c ->
  loads lib c = Ok doc ->
  Json.getitem_str doc "result" = Ok (JArr (first :: others)) ->
  Json.getitem_str first "content" = Ok r_ip ->
  Json.getitem_str first "id" = Ok r_id ->
  check_zone_apex lib w k n z p
  = (mkProc (stdout p) (calls p ++ [mkCall (zone_request lib k n z) TIMEOUT])%list,
     Return (r_ip, r_id)).
Proof.
  intros Hzone Hdoc Hresult Hcontent Hid.
  rewrite check_zone_apex_run, Hzone. unfold parsed_record.
  rewrite Hdoc. cbn [res_bind]. rewrite Hresult. cbn [res_bind Json.getitem_int
    list_getitem nth_error]. rewrite Hcontent. cbn [res_bind]. rewrite Hid. reflexivity.
Qed.

Lemma first_record_is_used_witness :
  let two_records :=
    JObj [("result", JArr [JObj [("content", JStr "1.2.3.4"); ("id", JStr "R1")];
                           JObj [("content", JStr "9.9.9.9"); ("id", JStr "R2")]])] in
  let lib := mkPyLib (fun _ => Ok two_records) Demo.dumps Demo.urlencode
               (fun _ => "None") (fun r => content r) in
  snd (check_zone_apex lib Demo.scenario2 "K" "example.com" "Z1" Demo.fresh)
  = Return (JStr "1.2.3.4", JStr "R1").
Proof.
  intros two_records lib.
  rewrite (first_record_is_used lib Demo.scenario2 "K" "example.com" "Z1" Demo.fresh
             [] (Demo.zone_doc "1.2.3.4" "R1") two_records
             (JObj [("content", JStr "1.2.3.4"); ("id", JStr "R1")])
             [JObj [("content", JStr "9.9.9.9"); ("id", JStr "R2")]]
             (JStr "1.2.3.4") (JStr "R1") eq_refl eq_refl eq_refl eq_refl eq_refl).
  reflexivity.
Defined.

Lemma substring_length_le (s : string) (n m : nat) :
  String.length (substring n m s) <= m.
Proof.
  revert n m. induction s as [|c s IH]; intros [|n] [|m]; cbn; try lia.
  - specialize (IH 0 m). lia.
  - apply (IH n 0).
  - apply (IH n (S m)).
Qed.

Lemma slice_last_cons (c : ascii) (s : string) :
  3 <= String.length s ->
  PyStr.slice_last 3 (String c s) = PyStr.slice_last 3 s.
Proof.
  intros Hlen. unfold PyStr.slice_last. cbn [String.length].
  replace (S (String.length s) - 3) with (S (String.length s - 3)) by lia.
  reflexivity.
Qed.

(** X13. The masked view prints at most six characters of a secret, and
    for a secret of seven characters or more it does hide something: there
    is another secret of the same length that the lines for the API key
    and for the zone identifier print in the same way. *)
Theorem long_secret_middle_is_hidden (s : string) :
  7 <= String.length s ->
  String.length (PyStr.slice_to 3 s) <= 3
  /\ String.length (PyStr.slice_last 3 s) <= 3
  /\ exists s',
       s' <> s
       /\ String.length s' = String.length s
       /\ forall name other p,
            announce s' name other p = announce s name other p
            /\ announce other name s' p = announce other name s p.
Proof.
  intros Hlen. split; [apply substring_length_le|]. split; [apply substring_length_le|].
  destruct s as [|a [|b [|c [|d rest]]]]; cbn [String.length] in Hlen; try lia.
  set (d' := if Ascii.eqb d "x" then "y"%char else "x"%char).
  exists (String a (String b (String c (String d' rest)))).
  assert (Hto : PyStr.slice_to 3 (String a (String b (String c (String d' rest))))
                = PyStr.slice_to 3 (String a (String b (String c (String d rest)))))
    by reflexivity.
  assert (Hlast : PyStr.slice_last 3 (String a (String b (String c (String d' rest))))
                  = PyStr.slice_last 3 (String a (String b (String c (String d rest))))).
  { rewrite !slice_last_cons by (cbn [String.length]; lia). reflexivity. }
  split; [|split; [reflexivity|]].
  - intros [= E]. subst d'. destruct (Ascii.eqb_spec d "x") as [->|Hd]; [discriminate|].
    apply Hd. symmetry. exact E.
  - intros name other p. unfold announce. rewrite Hto, Hlast. split; reflexivity.
Qed.

Lemma long_secret_middle_is_hidden_witness :
  exists s',
    s' <> "sk-live-0123456789"
    /\ announce s' "example.com" "Z1" Demo.fresh
       = announce "sk-live-0123456789" "example.com" "Z1" Demo.fresh.
Proof.
  destruct (long_secret_middle_is_hidden "sk-live-0123456789") as (_ & _ & s' & Hne & _ & Hsame).
  - cbn. lia.
  - exists s'. split; [exact Hne|]. apply Hsame.
Defined.

(** X14. Two addresses that are strings are compared as texts, character
    by character, with nothing normalised: once both lookups have
    returned strings, the run makes no mutating call exactly when the two
    strings are the same, and otherwise makes the PATCH. *)
Theorem string_addresses_patch_iff_differ (lib : PyLib) (w : World)
    (p1 p2 p3 : Proc) (k n z a b : string) (record_id : json) :
  _read_envs w (mkProc [] []) = (p1, Return (k, n, z)) ->
  check_public_ip lib w (fst (announce k n z p1)) = (p2, Return (JStr a)) ->
  check_zone_apex lib w k n z p2 = (p3, Return (JStr b, record_id)) ->
  (mutating_calls (fst (run lib w)) = [] <-> a = b)
  /\ (a <> b ->
      mutating_calls (fst (run lib w))
      = [mkCall (patch_request lib k z record_id (update_comment lib w (JStr b)) (JStr a))
           TIMEOUT]).
Proof.
  intros H0 H1 H2.
  destruct (run_resolved lib w p1 k n z H0) as [Hrun Hfresh].
  rewrite Hrun, (reconcile_resolved lib w k n z _ p2 p3 _ _ _ H1 H2), py_ne_str.
  destruct (check_public_ip_returns lib w _ _ _ H1) as [-> _].
  destruct (check_zone_apex_returns lib w _ _ _ _ _ _ H2) as [-> _].
  unfold mutating_calls.
  destruct (String.eqb_spec a b) as [->|Hab]; cbn [negb].
  - cbn [fst calls]. rewrite Hfresh. split; [split; reflexivity|]. intros Hne.
    exfalso. apply Hne. reflexivity.
  - cbv zeta.
    match goal with
    | |- context [update_zone_apex lib w k z record_id (JStr b) (JStr a) ?q] =>
        pose proof (update_zone_apex_calls lib w k z record_id (JStr b) (JStr a) q) as Hc;
        destruct (update_zone_apex lib w k z record_id (JStr b) (JStr a) q) as [p5 [[]|c|e]]
    end; cbn [fst calls] in Hc |- *; rewrite Hc, Hfresh;
      (split; [split; [discriminate | intros; contradiction] | intros _; reflexivity]).
Qed.

Lemma string_addresses_patch_iff_differ_witness :
  List.length (mutating_calls (fst (run Demo.lib Demo.scenario2))) = 1
  /\ mutating_calls (fst (run Demo.lib Demo.scenario1)) = [].
Proof.
  destruct (string_addresses_patch_iff_differ Demo.lib Demo.scenario2 _ _ _
              "K" "example.com" "Z1" "5.6.7.8" "1.2.3.4" (JStr "R1")
              eq_refl eq_refl eq_refl) as [_ Hpatch].
  destruct (string_addresses_patch_iff_differ Demo.lib Demo.scenario1 _ _ _
              "K" "example.com" "Z1" "1.2.3.4" "1.2.3.4" (JStr "R1")
              eq_refl eq_refl eq_refl) as [Hsame _].
  split.
  - rewrite Hpatch; [reflexivity | discriminate].
  - apply Hsame. reflexivity.
Defined.
